(** * MarineBeacon: the flash-pattern player of [marine_beacon.ino]

    A shallow embedding of the sketch: the machine integers of the
    ATmega328 target, the pins, the pattern arrays, [blinkLamp],
    [readSwitches] and the [switch] of [loop], followed by the properties
    of the pattern registry and of the player. *)

From Stdlib Require Import ZArith List Bool Lia.
Import ListNotations.
Open Scope Z_scope.

(** ** Machine integers

    On the Arduino Nano a [byte] is 8 bits unsigned, an [int] is 16 bits
    signed and an [unsigned long] is 32 bits.  Values are carried as [Z]
    and every conversion writes its wrap-around out. *)

Definition to_byte (z : Z) : Z := z mod 256.

Definition to_int (z : Z) : Z := (z + 32768) mod 65536 - 32768.

Definition to_ulong (z : Z) : Z := z mod 4294967296.

Definition is_byte (v : Z) : Prop := 0 <= v <= 255.

Definition INT_MIN : Z := -32768.
Definition INT_MAX : Z := 32767.

(** ** Pins ([#define]s of the sketch) and levels *)

Definition Sw_A0 : Z := 3.
Definition Sw_A1 : Z := 4.
Definition Sw_A2 : Z := 5.
Definition Sw_A3 : Z := 6.
Definition Sw_B0 : Z := 7.
Definition Sw_B1 : Z := 8.
Definition Sw_B2 : Z := 9.
Definition Sw_B3 : Z := 10.
Definition LED : Z := 13.
Definition Lamp : Z := 2.

Definition HIGH : bool := true.
Definition LOW : bool := false.

(** ** Observable effects

    The sketch acts on the world through [digitalWrite] and [delay] only;
    a run is the list of these calls in program order. *)

Inductive event : Type :=
| DigitalWrite (pin : Z) (level : bool)
| Delay (ms : Z).

Definition trace : Type := list event.

(** ** Pattern arrays

    Timing values in 0.1 s increments: on, off, on, off, ...  The comment
    after each array is the flash code it implements. *)

Definition Code01 : list Z := [8; 32]. (* FL 4 S *)
Definition Code02 : list Z := [10; 140]. (* FL 15 S *)
Definition Code03 : list Z := [30; 20]. (* OC 5 S *)
Definition Code04 : list Z := [5; 10]. (* FL 1.5 S *)
Definition Code05 : list Z := [5; 11]. (* FL 1.5 S *)
Definition Code06 : list Z := [2; 98]. (* FL 10 S *)
Definition Code07 : list Z := [5; 10; 5; 30]. (* FL (2) 5 S *)
Definition Code08 : list Z := [5; 15; 5; 15; 5; 105]. (* FL (3) 15 S *)
Definition Code09 : list Z := [7; 5; 7; 5; 19; 107]. (* FL (2 + 1) 15 S / MO (U) 15 S *)
Definition Code0A : list Z := [5; 10; 5; 20]. (* FL (2) 4 S *)
Definition Code0B : list Z := [3; 10; 3; 10; 3; 61]. (* FL (3) 9 S *)
Definition Code0C : list Z := [3; 2; 3; 2; 3; 37]. (* VQ (3) 5 S *)
Definition Code0D : list Z := [5; 15; 5; 15; 5; 45; 5; 105]. (* FL (4) 20 S *)
Definition Code0E : list Z := [3; 7; 3; 7; 3; 7; 3; 7; 3; 7; 3; 7; 3; 7; 3; 7; 3; 67]. (* VQ (9) 15 S *)
Definition Code0F : list Z := [5; 5; 5; 5; 5; 5; 5; 165]. (* Q (4) 20 S *)
Definition Code10 : list Z := [3; 12]. (* FL 1.5 S *)
Definition Code11 : list Z := [10; 30]. (* FL 4 S *)
Definition Code12 : list Z := [10; 10]. (* ISO 2 S *)
Definition Code13 : list Z := [40; 10]. (* OC 5 S *)
Definition Code14 : list Z := [15; 85]. (* FL 10 S *)
Definition Code15 : list Z := [2; 28]. (* FL 3 S *)
Definition Code16 : list Z := [3; 97]. (* FL 10 S *)
Definition Code17 : list Z := [10; 10; 10; 20]. (* FL (2) 5 S *)
Definition Code18 : list Z := [10; 10; 10; 40; 101]. (* FL (2+1) 13.5 S *)
Definition Code19 : list Z := [7; 7; 7; 7; 21; 101]. (* FL (2+1) 15 S *)
Definition Code1A : list Z := [3; 10; 3; 29]. (* FL (2) 4.5 S *)
Definition Code1B : list Z := [5; 15; 5; 15; 5; 75]. (* FL (3) 12 S *)
Definition Code1C : list Z := [1; 5; 1; 5; 1; 137]. (* VQ (3) 15 S *)
Definition Code1D : list Z := [5; 10; 5; 10; 50; 10; 5; 50]. (* FL (4) 10 S *)
Definition Code1E : list Z := [6; 6; 6; 6; 6; 6; 6; 6; 6; 6; 6; 6; 6; 6; 6; 6; 6; 48]. (* VQ (9) 15 S *)
Definition Code1F : list Z := [2; 8; 2; 8; 2; 8; 2; 8; 2; 8; 2; 8; 2; 8; 2; 8; 2; 68]. (* VQ (9) 15 S *)
Definition Code20 : list Z := [2; 18]. (* FL 2 S *)
Definition Code21 : list Z := [15; 25]. (* FL 4 S *)
Definition Code22 : list Z := [15; 15]. (* ISO 3 S *)
Definition Code23 : list Z := [45; 5]. (* OC 5 S *)
Definition Code24 : list Z := [40; 60]. (* LFL 10 S *)
Definition Code25 : list Z := [4; 26]. (* FL 3 S *)
Definition Code26 : list Z := [8; 92]. (* FL 10 S *)
Definition Code28 : list Z := [8; 12; 8; 32]. (* FL (2) 6 S *)
Definition Code29 : list Z := [5; 5; 5; 35]. (* Q (2) 5 S *)
Definition Code2A : list Z := [4; 10; 4; 27]. (* FL (2) 4.5 S *)
Definition Code2B : list Z := [3; 4; 3; 12; 3; 35]. (* FL (2+1) 6 S *)
Definition Code2C : list Z := [2; 12; 2; 34]. (* FL (2) 5 S *)
Definition Code2D : list Z := [8; 12; 8; 12; 8; 12; 8; 32]. (* FL (4) 10 S *)
Definition Code2E : list Z := [3; 7; 3; 7; 3; 7; 3; 7; 3; 7; 3; 7; 20; 70]. (* Q (6) + LFL 15 S *)
Definition Code2F : list Z := [2; 8; 2; 8; 2; 8; 2; 8; 2; 8; 2; 8; 20; 70]. (* Q (6) + LFL 15 S *)
Definition Code30 : list Z := [3; 17]. (* FL 2 S *)
Definition Code31 : list Z := [13; 30]. (* FL 3.2 S *)
Definition Code32 : list Z := [20; 20]. (* ISO 4 S *)
Definition Code33 : list Z := [45; 15]. (* OC 6 S *)
Definition Code34 : list Z := [20; 100]. (* LFL 12 S *)
Definition Code35 : list Z := [20; 10]. (* FL 3 S *)
Definition Code36 : list Z := [25; 15]. (* OC 4 S *)
Definition Code37 : list Z := [10; 10; 10; 30]. (* FL (2) 6 S *)
Definition Code38 : list Z := [5; 7; 5; 21; 5; 57]. (* FL (2+1) 10 S *)
Definition Code39 : list Z := [3; 7; 3; 7; 3; 47]. (* FL (2) 6 S *)
Definition Code3A : list Z := [5; 10; 5; 25]. (* FL (2) 4.5 S *)
Definition Code3B : list Z := [5; 15; 5; 15; 5; 155]. (* FL (3) 20 S *)
Definition Code3C : list Z := [5; 10; 5; 10; 25]. (* FL (3) 6 S *)
Definition Code3D : list Z := [8; 12; 8; 12; 8; 12; 8; 52]. (* FL (4) 12 S *)
Definition Code3E : list Z := [6; 6; 6; 6; 6; 6; 6; 6; 6; 6; 6; 6; 20; 58]. (* Q (6) + LFL 15 S *)
Definition Code3F : list Z := [15; 15; 15; 15; 15; 15; 15; 95]. (* FL (4) 20 S *)
Definition Code40 : list Z := [4; 16]. (* FL 2 S *)
Definition Code41 : list Z := [3; 47]. (* FL 5 S *)
Definition Code42 : list Z := [25; 25]. (* ISO 5 S *)
Definition Code43 : list Z := [50; 10]. (* OC 6 S *)
Definition Code44 : list Z := [40; 110]. (* LFL 15 S *)
Definition Code45 : list Z := [2; 38]. (* FL 4 S *)
Definition Code46 : list Z := [25; 20]. (* 6 OC 3.5 S *)
Definition Code47 : list Z := [5; 10; 5; 60]. (* FL (2) 8 S *)
Definition Code48 : list Z := [8; 12; 8; 24; 8; 60]. (* FL (2+1) 12 S *)
Definition Code49 : list Z := [6; 4; 6; 84]. (* Q (2) 10 S *)
Definition Code4A : list Z := [4; 6; 4; 36]. (* FL (2) 5 S *)
Definition Code4B : list Z := [5; 30; 5; 30; 125]. (* FL (3) 20 S *)
Definition Code4C : list Z := [30; 20; 10; 20]. (* OC (2) 8 S *)
Definition Code4D : list Z := [5; 15; 5; 15; 5; 15; 5; 85]. (* FL (4) 15 S *)
Definition Code4E : list Z := [2; 3; 2; 3; 2; 3; 2; 3; 2; 3; 2; 3; 2; 3; 2; 3; 2; 58]. (* VQ (9) 10 S *)
Definition Code4F : list Z := [5; 5; 5; 5; 5; 5; 5; 85]. (* FL (4) 12 S *)
Definition Code50 : list Z := [5; 15]. (* FL 2 S *)
Definition Code51 : list Z := [5; 45]. (* FL 5 S *)
Definition Code52 : list Z := [30; 30]. (* ISO 6 S *)
Definition Code53 : list Z := [70; 30]. (* OC 10 S *)
Definition Code54 : list Z := [20; 10]. (* OC 3 S *)
Definition Code55 : list Z := [3; 37]. (* FL 4 S *)
Definition Code56 : list Z := [45; 25]. (* OC 7 S *)
Definition Code57 : list Z := [10; 10; 10; 50]. (* FL (2) 8 S *)
Definition Code58 : list Z := [10; 10; 10; 40; 10; 40]. (* FL (2+1) 12 S *)
Definition Code59 : list Z := [2; 3; 2; 3; 2; 38]. (* VQ (3) 5 S *)
Definition Code5A : list Z := [4; 14; 4; 33]. (* FL (2) 5.5 S *)
Definition Code5B : list Z := [8; 12; 8; 12; 8; 152]. (* FL (3) 20 S *)
Definition Code5C : list Z := [50; 10; 10; 10]. (* OC (2) 8 S *)
Definition Code5D : list Z := [5; 15; 5; 15; 5; 15; 5; 135]. (* FL (4) 20 S *)
Definition Code5E : list Z := [3; 3; 3; 3; 3; 3; 3; 3; 3; 3; 3; 3; 3; 3; 3; 3; 3; 49]. (* VQ (9) 10 S *)
Definition Code5F : list Z := [5; 5; 5; 5; 5; 5; 5; 5; 5; 155]. (* FL (5) 20 S *)
Definition Code60 : list Z := [2; 13]. (* FL 2 S *)
Definition Code61 : list Z := [10; 40]. (* FL 5 S *)
Definition Code62 : list Z := [40; 40]. (* ISO 8 S *)
Definition Code63 : list Z := [75; 25]. (* OC 10 S *)
Definition Code64 : list Z := [40; 20]. (* OC 6 S *)
Definition Code65 : list Z := [6; 34]. (* FL 4 S *)
Definition Code66 : list Z := [50; 30]. (* OC 8 S *)
Definition Code67 : list Z := [5; 10; 5; 8]. (* FL (2) 10 S *)
Definition Code68 : list Z := [10; 20; 10; 50; 10; 50]. (* FL (2 + 1) 15 S *)
Definition Code69 : list Z := [5; 20; 5; 70]. (* FL (2) 10 S *)
Definition Code6A : list Z := [3; 10; 3; 44]. (* FL (2) 6 S *)
Definition Code6B : list Z := [10; 10; 10; 10; 10; 150]. (* FL (3) 20 S *)
Definition Code6E : list Z := [2; 3; 2; 3; 2; 3; 2; 3; 2; 3; 2; 3; 20; 50]. (* VQ (6) + LFL 10 S *)
Definition Code6F : list Z := [5; 5; 5; 5; 5; 5; 5; 255; 0; 10]. (* FL (4) 30 S (hack to get 26.5sec using byte variables) *)
Definition Code70 : list Z := [3; 12]. (* FL 2 S *)
Definition Code71 : list Z := [15; 35]. (* FL 5 S *)
Definition Code72 : list Z := [50; 50]. (* ISO 10 S *)
Definition Code73 : list Z := [2; 8]. (* Q 1 S *)
Definition Code74 : list Z := [100; 50]. (* OC 15 S *)
Definition Code75 : list Z := [12; 48]. (* FL 6 S *)
Definition Code76 : list Z := [60; 30]. (* OC 9 S *)
Definition Code77 : list Z := [5; 15; 5; 75]. (* FL (2) 10 S *)
Definition Code78 : list Z := [3; 6; 10; 41]. (* FL (2) 6 S/MO (A) 6 S *)
Definition Code79 : list Z := [5; 5; 5; 5; 5; 25]. (* Q (3) 5 S *)
Definition Code7A : list Z := [4; 10; 4; 42]. (* FL (2) 6 S *)
Definition Code7B : list Z := [4; 6; 20; 50]. (* FL (2) 7 S *)
Definition Code7C : list Z := [4; 6; 20; 50]. (* MO (A) 8 S *)
Definition Code7D : list Z := [15; 5; 5; 5; 5; 5; 5; 105]. (* FL (4) 15 S/MO (B) 15 S *)
Definition Code7E : list Z := [3; 3; 3; 3; 3; 3; 3; 3; 3; 3; 3; 3; 20; 44]. (* VQ (6) + LFL 10 S *)
Definition Code7F : list Z := [5; 10; 5; 10; 5; 10; 5; 10; 50; 10; 5; 70]. (* FL (6) 15 S *)
Definition Code80 : list Z := [3; 22]. (* FL 2.5 S *)
Definition Code81 : list Z := [5; 5]. (* FL 6 S *)
Definition Code82 : list Z := [20; 30]. (* LFL 5 S *)
Definition Code83 : list Z := [3; 7]. (* Q 1 S *)
Definition Code84 : list Z := [8; 2]. (* Q 1 S *)
Definition Code85 : list Z := [2; 48]. (* FL 5 S *)
Definition Code86 : list Z := [60; 40]. (* OC 10 S *)
Definition Code87 : list Z := [8; 12; 8; 72]. (* FL (2) 10 S *)
Definition Code88 : list Z := [8; 12; 24; 36]. (* FL (2) 8 S/MO (A) 8 S *)
Definition Code89 : list Z := [50; 10; 10; 10; 10; 10]. (* OC (3) 10 S/MO (D) 10 S *)
Definition Code8A : list Z := [4; 10; 4; 62]. (* FL (2) 8 S *)
Definition Code8B : list Z := [2; 8; 2; 138]. (* Q (2) 15 S *)
Definition Code8D : list Z := [4; 6; 4; 6; 4; 6; 4; 26]. (* Q (4) 6 S *)
Definition Code8E : list Z := [10; 10; 10; 10; 10; 10; 80]. (* FL (4) 15 S *)
Definition Code8F : list Z := [3; 3; 3; 3; 3; 3; 3; 3; 3; 3; 3; 3; 20; 94]. (* VQ (6) + LFL 15 S *)
Definition Code90 : list Z := [5; 20]. (* FL 2.5 S *)
Definition Code91 : list Z := [6; 54]. (* FL 6 S *)
Definition Code92 : list Z := [20; 40]. (* LFL 6 S *)
Definition Code93 : list Z := [4; 6]. (* Q 1 S *)
Definition Code94 : list Z := [5; 7]. (* Q 1.2 S *)
Definition Code95 : list Z := [9; 41]. (* FL 5 S *)
Definition Code96 : list Z := [20; 50]. (* FL 7 S *)
Definition Code97 : list Z := [10; 15; 10; 65]. (* FL (2) 10 S *)
Definition Code98 : list Z := [5; 5; 15; 75]. (* MO (A) 10 S *)
Definition Code99 : list Z := [5; 10; 4; 40]. (* FL (2) 6 S *)
Definition Code9A : list Z := [4; 16; 4; 76]. (* FL (2) 10 S *)
Definition Code9B : list Z := [3; 7; 3; 37]. (* Q (2) 5 *)
Definition Code9D : list Z := [4; 10; 4; 10; 118]. (* FL (3) 15 S *)
Definition Code9E : list Z := [10; 10; 10; 10; 10; 10; 10; 10; 10; 111]. (* FL (5) 20 S *)
Definition Code9F : list Z := [8; 12; 8; 12; 8; 12; 8; 12; 8; 112]. (* FL (5) 20 S *)
Definition CodeA0 : list Z := [3; 27]. (* FL 3 S *)
Definition CodeA1 : list Z := [10; 50]. (* 1 FL 6 S *)
Definition CodeA2 : list Z := [20; 60]. (* LFL 8 S *)
Definition CodeA3 : list Z := [5; 5]. (* Q 1 S *)
Definition CodeA4 : list Z := [10; 60]. (* FL 7 S *)
Definition CodeA5 : list Z := [20; 180]. (* LFL 20 S *)
Definition CodeA6 : list Z := [10; 20; 10; 110]. (* FL (2) 15 S *)
Definition CodeA7 : list Z := [5; 15; 20; 110]. (* FL (2) 15 S *)
Definition CodeA8 : list Z := [5; 15; 20; 110]. (* FL (2) 15/MO (A) 15 S *)
Definition CodeA9 : list Z := [10; 10; 10; 40]. (* Q (2) 6 S *)
Definition CodeAA : list Z := [3; 9; 3; 45]. (* FL (2) 6 S *)
Definition CodeAB : list Z := [3; 7; 3; 7; 3; 37]. (* Q (3) 6 S *)
Definition CodeAD : list Z := [3; 7; 3; 7; 3; 7; 3; 87]. (* Q (4) 12 S *)
Definition CodeAE : list Z := [5; 10; 5; 10; 5; 10; 5; 10; 5; 10; 5; 70].
Definition CodeAF : list Z := [3; 7; 3; 7; 3; 7; 3; 7; 3; 7; 3; 97].
Definition CodeB0 : list Z := [15; 15]. (* FL 3 S *)
Definition CodeB1 : list Z := [15; 45]. (* FL 6 S *)
Definition CodeB2 : list Z := [30; 50]. (* LFL 8 S *)
Definition CodeB3 : list Z := [3; 9]. (* Q 1.2 S *)
Definition CodeB4 : list Z := [10; 70]. (* FL 8 S *)
Definition CodeB5 : list Z := [3; 57]. (* FL 6 S *)
Definition CodeB6 : list Z := [10; 10; 10; 30; 10; 50]. (* FL (3) 12 S *)
Definition CodeB7 : list Z := [8; 12; 8; 12; 8; 42]. (* FL (3) 9 S *)
Definition CodeB8 : list Z := [3; 7; 3; 7; 9; 71]. (* FL (3) 10 S/MO (U) 10 S *)
Definition CodeB9 : list Z := [10; 10; 10; 70]. (* FL (2) 10 S *)
Definition CodeBA : list Z := [4; 10; 4; 102]. (* FL (2) 12 S *)
Definition CodeBB : list Z := [3; 7; 3; 7; 3; 77]. (* Q (3) 10 S *)
Definition CodeBD : list Z := [3; 7; 3; 7; 3; 7; 3; 27]. (* Q (4) 6 S *)
Definition CodeBE : list Z := [3; 17; 3; 17; 3; 17; 3; 57]. (* FL (4) 12 S *)
Definition CodeBF : list Z := [3; 3; 3; 3; 3; 3; 3; 23]. (* VQ (4) 4 S *)
Definition CodeC0 : list Z := [7; 23]. (* FL 3 S *)
Definition CodeC1 : list Z := [8; 67]. (* FL 7.5 S *)
Definition CodeC2 : list Z := [20; 80]. (* LFL 10 S *)
Definition CodeC3 : list Z := [6; 6]. (* Q 1.2 S *)
Definition CodeC4 : list Z := [10; 80]. (* FL 9 S *)
Definition CodeC5 : list Z := [4; 56]. (* FL 6 S *)
Definition CodeC6 : list Z := [2; 58]. (* FL 6 S *)
Definition CodeC7 : list Z := [5; 15; 5; 15; 5; 55]. (* FL (3) 10 S *)
Definition CodeC8 : list Z := [4; 6; 4; 6; 12; 68]. (* FL (3) 10 S/MO (U) 10 S *)
Definition CodeC9 : list Z := [5; 10; 5; 100]. (* FL (2) 12 S *)
Definition CodeCA : list Z := [10; 30; 10; 150]. (* FL (2) 20 S *)
Definition CodeCB : list Z := [5; 5; 5; 5; 5; 75]. (* FL (3) 10 S *)
Definition CodeCD : list Z := [3; 30; 3; 30; 3; 30; 3; 98]. (* FL (4) 20 S *)
Definition CodeCE : list Z := [5; 15; 5; 15; 5; 15; 5; 55]. (* FL (4) 12 S *)
Definition CodeD0 : list Z := [10; 20]. (* FL 3 S *)
Definition CodeD1 : list Z := [5; 95]. (* FL 10 S *)
Definition CodeD2 : list Z := [30; 70]. (* LFL 10 S *)
Definition CodeD3 : list Z := [2; 3]. (* VQ 0.5 S *)
Definition CodeD4 : list Z := [25; 95]. (* FL 12 S *)
Definition CodeD5 : list Z := [5; 70]. (* FL 7.5 S *)
Definition CodeD6 : list Z := [10; 15]. (* FL 2.5 S *)
Definition CodeD7 : list Z := [10; 10; 10; 10; 10; 50]. (* FL (3) 10 S *)
Definition CodeD8 : list Z := [5; 5; 5; 5; 15; 65]. (* FL (2+1) 10 S/MO (U) 10 S *)
Definition CodeD9 : list Z := [15; 20; 15; 70]. (* FL (2) 12 S *)
Definition CodeDA : list Z := [10; 10; 10; 220]. (* FL (2) 25 S *)
Definition CodeDB : list Z := [6; 6; 6; 6; 6; 70]. (* FL (3) 10 S *)
Definition CodeDD : list Z := [3; 7; 3; 7; 3; 7; 3; 7; 3; 27]. (* Q (5) 7 S *)
Definition CodeDE : list Z := [5; 15; 5; 15; 5; 15; 5; 95]. (* FL (4) 16 S *)
Definition CodeE0 : list Z := [4; 36]. (* FL 4 S *)
Definition CodeE1 : list Z := [10; 90]. (* FL 10 S *)
Definition CodeE2 : list Z := [25; 5]. (* OC 3 S *)
Definition CodeE3 : list Z := [2; 4]. (* VQ 0.6 S *)
Definition CodeE4 : list Z := [10; 250]. (* FL 26 S *)
Definition CodeE5 : list Z := [5; 75]. (* FL 8 S *)
Definition CodeE7 : list Z := [8; 12; 8; 12; 8; 72]. (* FL (3) 12 S *)
Definition CodeE8 : list Z := [5; 15; 5; 15; 5; 15; 5; 15; 5; 35]. (* FL (5) 12 S *)
Definition CodeE9 : list Z := [3; 3; 3; 3; 3; 35]. (* VQ (3) 5 S *)
Definition CodeEA : list Z := [5; 20; 5; 20; 5; 65]. (* FL (3) 12 S *)
Definition CodeEB : list Z := [2; 10; 2; 26]. (* VQ (2) 4 S *)
Definition CodeED : list Z := [3; 7; 3; 7; 3; 7; 3; 7; 3; 57]. (* Q (5) 10 S *)
Definition CodeEE : list Z := [5; 5; 5; 5; 5; 5; 5; 245]. (* Q (4) 28 S *)
Definition CodeF0 : list Z := [5; 35]. (* FL 4 S *)
Definition CodeF1 : list Z := [12; 108]. (* FL 12 S *)
Definition CodeF2 : list Z := [30; 10]. (* OC 4 S *)
Definition CodeF3 : list Z := [3; 3]. (* VQ 0.6 S *)
Definition CodeF4 : list Z := [2; 13]. (* FL 1.5 S *)
Definition CodeF5 : list Z := [9; 81]. (* FL 9 S *)
Definition CodeF7 : list Z := [3; 17; 3; 17; 3; 107]. (* FL (3) 15 S *)
Definition CodeF8 : list Z := [6; 3; 6; 3; 14; 118]. (* FL (2+1) 15 S/MO (U) 15 S *)
Definition CodeF9 : list Z := [2; 8; 2; 38]. (* FL (2) 5 S *)
Definition CodeFA : list Z := [5; 10; 5; 10; 5; 45]. (* FL (3) 8 S *)
Definition CodeFB : list Z := [2; 10; 2; 66]. (* VQ (2) 8 S *)
Definition CodeFD : list Z := [3; 7; 3; 7; 3; 7; 3; 7; 3; 7; 3; 47]. (* Q (6) 10 S *)
Definition CodeFE : list Z := [3; 7; 3; 7; 3; 7; 3; 67]. (* Q (4) 10 S *)
Definition CodeFF : list Z := [6; 3; 14; 3; 6; 3; 6; 10; 14; 3; 14; 3; 14; 10; 6; 3; 14; 3; 6; 3; 6; 70]. (* MO (LOL) 20 S // Not a real IALA code *)

(** [sizeof] of a [byte] array is its number of elements. *)

Definition sizeof (a : list Z) : Z := Z.of_nat (length a).

(** ** [blinkLamp]

    [for (byte i = 0; i < pattern_length; i++)]: one unit of [fuel] is
    spent per evaluation of the loop condition.  Reading [pattern[i]]
    past the end of the array has no defined result and yields [None]. *)

Definition millisecs_of (v : Z) : Z := to_int (v * 100).

Fixpoint blinkLamp_loop (fuel : nat) (pattern : list Z) (pattern_length : Z)
    (i : Z) (lampState : bool) : option trace :=
  match fuel with
  | O => None
  | S fuel' =>
    if i <? pattern_length then
      match nth_error pattern (Z.to_nat i) with
      | None => None
      | Some v =>
        let millisecs := millisecs_of v in
        if millisecs =? 0 then
          let lampState := negb lampState in
          blinkLamp_loop fuel' pattern pattern_length (to_byte (i + 1)) lampState
        else
          let lampState := negb lampState in
          option_map
            (fun rest =>
               DigitalWrite Lamp lampState
                 :: DigitalWrite LED lampState
                 :: Delay (to_ulong millisecs) :: rest)
            (blinkLamp_loop fuel' pattern pattern_length (to_byte (i + 1)) lampState)
      end
    else Some []
  end.

(** A [byte] counter below a [byte] bound passes the loop condition at
    most 255 times, so 256 evaluations of the condition always suffice. *)

Definition blinkLamp (pattern : list Z) (pattern_length : Z) : option trace :=
  blinkLamp_loop 256 pattern pattern_length 0 false.

(** ** [readSwitches] *)

Definition readSwitches (digitalRead : Z -> bool) : Z :=
  let sum := 0 in
  let sum := if eqb (digitalRead Sw_A0) HIGH then to_byte (sum + 1) else sum in
  let sum := if eqb (digitalRead Sw_A1) HIGH then to_byte (sum + 2) else sum in
  let sum := if eqb (digitalRead Sw_A2) HIGH then to_byte (sum + 4) else sum in
  let sum := if eqb (digitalRead Sw_A3) HIGH then to_byte (sum + 8) else sum in
  let sum := if eqb (digitalRead Sw_B0) HIGH then to_byte (sum + 16) else sum in
  let sum := if eqb (digitalRead Sw_B1) HIGH then to_byte (sum + 32) else sum in
  let sum := if eqb (digitalRead Sw_B2) HIGH then to_byte (sum + 64) else sum in
  let sum := if eqb (digitalRead Sw_B3) HIGH then to_byte (sum + 128) else sum in
  sum.

(** ** [loop]

    The [switch] has three kinds of branch: [case 0] writes the lamp
    directly, every other [case] calls [blinkLamp] on the array of its
    code, and [default] calls it on [CodeFF].  [select] is the choice of
    the branch and [perform] the body of the chosen branch. *)

Inductive selection : Type :=
| SteadyOn
| Rhythm (pattern : list Z)
| Fallback.

Definition select (setting : Z) : selection :=
  match setting with
  | 0 => SteadyOn
  | 1 => Rhythm Code01
  | 2 => Rhythm Code02
  | 3 => Rhythm Code03
  | 4 => Rhythm Code04
  | 5 => Rhythm Code05
  | 6 => Rhythm Code06
  | 7 => Rhythm Code07
  | 8 => Rhythm Code08
  | 9 => Rhythm Code09
  | 10 => Rhythm Code0A
  | 11 => Rhythm Code0B
  | 12 => Rhythm Code0C
  | 13 => Rhythm Code0D
  | 14 => Rhythm Code0E
  | 15 => Rhythm Code0F
  | 16 => Rhythm Code10
  | 17 => Rhythm Code11
  | 18 => Rhythm Code12
  | 19 => Rhythm Code13
  | 20 => Rhythm Code14
  | 21 => Rhythm Code15
  | 22 => Rhythm Code16
  | 23 => Rhythm Code17
  | 24 => Rhythm Code18
  | 25 => Rhythm Code19
  | 26 => Rhythm Code1A
  | 27 => Rhythm Code1B
  | 28 => Rhythm Code1C
  | 29 => Rhythm Code1D
  | 30 => Rhythm Code1E
  | 31 => Rhythm Code1F
  | 32 => Rhythm Code20
  | 33 => Rhythm Code21
  | 34 => Rhythm Code22
  | 35 => Rhythm Code23
  | 36 => Rhythm Code24
  | 37 => Rhythm Code25
  | 38 => Rhythm Code26
  | 40 => Rhythm Code28
  | 41 => Rhythm Code29
  | 42 => Rhythm Code2A
  | 43 => Rhythm Code2B
  | 44 => Rhythm Code2C
  | 45 => Rhythm Code2D
  | 46 => Rhythm Code2E
  | 47 => Rhythm Code2F
  | 48 => Rhythm Code30
  | 49 => Rhythm Code31
  | 50 => Rhythm Code32
  | 51 => Rhythm Code33
  | 52 => Rhythm Code34
  | 53 => Rhythm Code35
  | 54 => Rhythm Code36
  | 55 => Rhythm Code37
  | 56 => Rhythm Code38
  | 57 => Rhythm Code39
  | 58 => Rhythm Code3A
  | 59 => Rhythm Code3B
  | 60 => Rhythm Code3C
  | 61 => Rhythm Code3D
  | 62 => Rhythm Code3E
  | 63 => Rhythm Code3F
  | 64 => Rhythm Code40
  | 65 => Rhythm Code41
  | 66 => Rhythm Code42
  | 67 => Rhythm Code43
  | 68 => Rhythm Code44
  | 69 => Rhythm Code45
  | 70 => Rhythm Code46
  | 71 => Rhythm Code47
  | 72 => Rhythm Code48
  | 73 => Rhythm Code49
  | 74 => Rhythm Code4A
  | 75 => Rhythm Code4B
  | 76 => Rhythm Code4C
  | 77 => Rhythm Code4D
  | 78 => Rhythm Code4E
  | 79 => Rhythm Code4F
  | 80 => Rhythm Code50
  | 81 => Rhythm Code51
  | 82 => Rhythm Code52
  | 83 => Rhythm Code53
  | 84 => Rhythm Code54
  | 85 => Rhythm Code55
  | 86 => Rhythm Code56
  | 87 => Rhythm Code57
  | 88 => Rhythm Code58
  | 89 => Rhythm Code59
  | 90 => Rhythm Code5A
  | 91 => Rhythm Code5B
  | 92 => Rhythm Code5C
  | 93 => Rhythm Code5D
  | 94 => Rhythm Code5E
  | 95 => Rhythm Code5F
  | 96 => Rhythm Code60
  | 97 => Rhythm Code61
  | 98 => Rhythm Code62
  | 99 => Rhythm Code63
  | 100 => Rhythm Code64
  | 101 => Rhythm Code65
  | 102 => Rhythm Code66
  | 103 => Rhythm Code67
  | 104 => Rhythm Code68
  | 105 => Rhythm Code69
  | 106 => Rhythm Code6A
  | 107 => Rhythm Code6B
  | 110 => Rhythm Code6E
  | 111 => Rhythm Code6F
  | 112 => Rhythm Code70
  | 113 => Rhythm Code71
  | 114 => Rhythm Code72
  | 115 => Rhythm Code73
  | 116 => Rhythm Code74
  | 117 => Rhythm Code75
  | 118 => Rhythm Code76
  | 119 => Rhythm Code77
  | 120 => Rhythm Code78
  | 121 => Rhythm Code79
  | 122 => Rhythm Code7A
  | 123 => Rhythm Code7B
  | 124 => Rhythm Code7C
  | 125 => Rhythm Code7D
  | 126 => Rhythm Code7E
  | 127 => Rhythm Code7F
  | 128 => Rhythm Code80
  | 129 => Rhythm Code81
  | 130 => Rhythm Code82
  | 131 => Rhythm Code83
  | 132 => Rhythm Code84
  | 133 => Rhythm Code85
  | 134 => Rhythm Code86
  | 135 => Rhythm Code87
  | 136 => Rhythm Code88
  | 137 => Rhythm Code89
  | 138 => Rhythm Code8A
  | 139 => Rhythm Code8B
  | 141 => Rhythm Code8D
  | 142 => Rhythm Code8E
  | 143 => Rhythm Code8F
  | 144 => Rhythm Code90
  | 145 => Rhythm Code91
  | 146 => Rhythm Code92
  | 147 => Rhythm Code93
  | 148 => Rhythm Code94
  | 149 => Rhythm Code95
  | 150 => Rhythm Code96
  | 151 => Rhythm Code97
  | 152 => Rhythm Code98
  | 153 => Rhythm Code99
  | 154 => Rhythm Code9A
  | 155 => Rhythm Code9B
  | 157 => Rhythm Code9D
  | 158 => Rhythm Code9E
  | 159 => Rhythm Code9F
  | 160 => Rhythm CodeA0
  | 161 => Rhythm CodeA1
  | 162 => Rhythm CodeA2
  | 163 => Rhythm CodeA3
  | 164 => Rhythm CodeA4
  | 165 => Rhythm CodeA5
  | 166 => Rhythm CodeA6
  | 167 => Rhythm CodeA7
  | 168 => Rhythm CodeA8
  | 169 => Rhythm CodeA9
  | 170 => Rhythm CodeAA
  | 171 => Rhythm CodeAB
  | 173 => Rhythm CodeAD
  | 174 => Rhythm CodeAE
  | 175 => Rhythm CodeAF
  | 176 => Rhythm CodeB0
  | 177 => Rhythm CodeB1
  | 178 => Rhythm CodeB2
  | 179 => Rhythm CodeB3
  | 180 => Rhythm CodeB4
  | 181 => Rhythm CodeB5
  | 182 => Rhythm CodeB6
  | 183 => Rhythm CodeB7
  | 184 => Rhythm CodeB8
  | 185 => Rhythm CodeB9
  | 186 => Rhythm CodeBA
  | 187 => Rhythm CodeBB
  | 189 => Rhythm CodeBD
  | 190 => Rhythm CodeBE
  | 191 => Rhythm CodeBF
  | 192 => Rhythm CodeC0
  | 193 => Rhythm CodeC1
  | 194 => Rhythm CodeC2
  | 195 => Rhythm CodeC3
  | 196 => Rhythm CodeC4
  | 197 => Rhythm CodeC5
  | 198 => Rhythm CodeC6
  | 199 => Rhythm CodeC7
  | 200 => Rhythm CodeC8
  | 201 => Rhythm CodeC9
  | 202 => Rhythm CodeCA
  | 203 => Rhythm CodeCB
  | 205 => Rhythm CodeCD
  | 206 => Rhythm CodeCE
  | 208 => Rhythm CodeD0
  | 209 => Rhythm CodeD1
  | 210 => Rhythm CodeD2
  | 211 => Rhythm CodeD3
  | 212 => Rhythm CodeD4
  | 213 => Rhythm CodeD5
  | 214 => Rhythm CodeD6
  | 215 => Rhythm CodeD7
  | 216 => Rhythm CodeD8
  | 217 => Rhythm CodeD9
  | 218 => Rhythm CodeDA
  | 219 => Rhythm CodeDB
  | 221 => Rhythm CodeDD
  | 222 => Rhythm CodeDE
  | 224 => Rhythm CodeE0
  | 225 => Rhythm CodeE1
  | 226 => Rhythm CodeE2
  | 227 => Rhythm CodeE3
  | 228 => Rhythm CodeE4
  | 229 => Rhythm CodeE5
  | 231 => Rhythm CodeE7
  | 232 => Rhythm CodeE8
  | 233 => Rhythm CodeE9
  | 234 => Rhythm CodeEA
  | 235 => Rhythm CodeEB
  | 237 => Rhythm CodeED
  | 238 => Rhythm CodeEE
  | 240 => Rhythm CodeF0
  | 241 => Rhythm CodeF1
  | 242 => Rhythm CodeF2
  | 243 => Rhythm CodeF3
  | 244 => Rhythm CodeF4
  | 245 => Rhythm CodeF5
  | 247 => Rhythm CodeF7
  | 248 => Rhythm CodeF8
  | 249 => Rhythm CodeF9
  | 250 => Rhythm CodeFA
  | 251 => Rhythm CodeFB
  | 253 => Rhythm CodeFD
  | 254 => Rhythm CodeFE
  | _ => Fallback
  end.

Definition perform (s : selection) : option trace :=
  match s with
  | SteadyOn => Some [DigitalWrite Lamp HIGH; DigitalWrite LED HIGH]
  | Rhythm pattern => blinkLamp pattern (to_byte (sizeof pattern))
  | Fallback => blinkLamp CodeFF (to_byte (sizeof CodeFF))
  end.

Definition loop (digitalRead : Z -> bool) : option trace :=
  let setting := readSwitches digitalRead in
  perform (select setting).

(** The [case] labels of the [switch] other than 0, in source order,
    each with the array its branch passes to [blinkLamp]. *)

Definition registry : list (Z * list Z) :=
  [
   (1, Code01); (2, Code02); (3, Code03); (4, Code04); (5, Code05); (6, Code06);
   (7, Code07); (8, Code08); (9, Code09); (10, Code0A); (11, Code0B); (12, Code0C);
   (13, Code0D); (14, Code0E); (15, Code0F); (16, Code10); (17, Code11); (18, Code12);
   (19, Code13); (20, Code14); (21, Code15); (22, Code16); (23, Code17); (24, Code18);
   (25, Code19); (26, Code1A); (27, Code1B); (28, Code1C); (29, Code1D); (30, Code1E);
   (31, Code1F); (32, Code20); (33, Code21); (34, Code22); (35, Code23); (36, Code24);
   (37, Code25); (38, Code26); (40, Code28); (41, Code29); (42, Code2A); (43, Code2B);
   (44, Code2C); (45, Code2D); (46, Code2E); (47, Code2F); (48, Code30); (49, Code31);
   (50, Code32); (51, Code33); (52, Code34); (53, Code35); (54, Code36); (55, Code37);
   (56, Code38); (57, Code39); (58, Code3A); (59, Code3B); (60, Code3C); (61, Code3D);
   (62, Code3E); (63, Code3F); (64, Code40); (65, Code41); (66, Code42); (67, Code43);
   (68, Code44); (69, Code45); (70, Code46); (71, Code47); (72, Code48); (73, Code49);
   (74, Code4A); (75, Code4B); (76, Code4C); (77, Code4D); (78, Code4E); (79, Code4F);
   (80, Code50); (81, Code51); (82, Code52); (83, Code53); (84, Code54); (85, Code55);
   (86, Code56); (87, Code57); (88, Code58); (89, Code59); (90, Code5A); (91, Code5B);
   (92, Code5C); (93, Code5D); (94, Code5E); (95, Code5F); (96, Code60); (97, Code61);
   (98, Code62); (99, Code63); (100, Code64); (101, Code65); (102, Code66); (103, Code67);
   (104, Code68); (105, Code69); (106, Code6A); (107, Code6B); (110, Code6E); (111, Code6F);
   (112, Code70); (113, Code71); (114, Code72); (115, Code73); (116, Code74); (117, Code75);
   (118, Code76); (119, Code77); (120, Code78); (121, Code79); (122, Code7A); (123, Code7B);
   (124, Code7C); (125, Code7D); (126, Code7E); (127, Code7F); (128, Code80); (129, Code81);
   (130, Code82); (131, Code83); (132, Code84); (133, Code85); (134, Code86); (135, Code87);
   (136, Code88); (137, Code89); (138, Code8A); (139, Code8B); (141, Code8D); (142, Code8E);
   (143, Code8F); (144, Code90); (145, Code91); (146, Code92); (147, Code93); (148, Code94);
   (149, Code95); (150, Code96); (151, Code97); (152, Code98); (153, Code99); (154, Code9A);
   (155, Code9B); (157, Code9D); (158, Code9E); (159, Code9F); (160, CodeA0); (161, CodeA1);
   (162, CodeA2); (163, CodeA3); (164, CodeA4); (165, CodeA5); (166, CodeA6); (167, CodeA7);
   (168, CodeA8); (169, CodeA9); (170, CodeAA); (171, CodeAB); (173, CodeAD); (174, CodeAE);
   (175, CodeAF); (176, CodeB0); (177, CodeB1); (178, CodeB2); (179, CodeB3); (180, CodeB4);
   (181, CodeB5); (182, CodeB6); (183, CodeB7); (184, CodeB8); (185, CodeB9); (186, CodeBA);
   (187, CodeBB); (189, CodeBD); (190, CodeBE); (191, CodeBF); (192, CodeC0); (193, CodeC1);
   (194, CodeC2); (195, CodeC3); (196, CodeC4); (197, CodeC5); (198, CodeC6); (199, CodeC7);
   (200, CodeC8); (201, CodeC9); (202, CodeCA); (203, CodeCB); (205, CodeCD); (206, CodeCE);
   (208, CodeD0); (209, CodeD1); (210, CodeD2); (211, CodeD3); (212, CodeD4); (213, CodeD5);
   (214, CodeD6); (215, CodeD7); (216, CodeD8); (217, CodeD9); (218, CodeDA); (219, CodeDB);
   (221, CodeDD); (222, CodeDE); (224, CodeE0); (225, CodeE1); (226, CodeE2); (227, CodeE3);
   (228, CodeE4); (229, CodeE5); (231, CodeE7); (232, CodeE8); (233, CodeE9); (234, CodeEA);
   (235, CodeEB); (237, CodeED); (238, CodeEE); (240, CodeF0); (241, CodeF1); (242, CodeF2);
   (243, CodeF3); (244, CodeF4); (245, CodeF5); (247, CodeF7); (248, CodeF8); (249, CodeF9);
   (250, CodeFA); (251, CodeFB); (253, CodeFD); (254, CodeFE) ].

Definition case_labels : list Z := map fst registry.

Fixpoint assoc (k : Z) (l : list (Z * list Z)) : option (list Z) :=
  match l with
  | [] => None
  | (k', p) :: rest => if k =? k' then Some p else assoc k rest
  end.

(** The registry as the specification words it: code 0 is the steady
    light, a code with a [case] resolves to the array of that [case], and
    any other code resolves to the fallback. *)

Inductive resolves : Z -> selection -> Prop :=
| resolves_steady : resolves 0 SteadyOn
| resolves_rhythm code pattern :
    code <> 0 -> In (code, pattern) registry -> resolves code (Rhythm pattern)
| resolves_fallback code :
    code <> 0 -> ~ In code case_labels -> resolves code Fallback.

Definition unassigned (code : Z) : Prop := code <> 0 /\ ~ In code case_labels.

(** The unassigned codes as the legacy table lists them. *)

Definition legacy_unassigned : list Z :=
  [39; 108; 109; 140; 156; 172; 188; 204; 207; 220; 223; 230; 236; 239; 246;
   252; 255].

(** Several control cycles in a row, one switch reading per cycle. *)

Fixpoint run_cycles (settings : list Z) : option trace :=
  match settings with
  | [] => Some []
  | setting :: later =>
    match perform (select setting) with
    | None => None
    | Some tr => option_map (app tr) (run_cycles later)
    end
  end.

(** ** Observations on a trace *)

Definition lamp_write (e : event) : list bool :=
  match e with
  | DigitalWrite pin level => if pin =? Lamp then [level] else []
  | Delay _ => []
  end.

Definition lamp_writes (tr : trace) : list bool := flat_map lamp_write tr.

Definition delay_of (e : event) : list Z :=
  match e with
  | DigitalWrite _ _ => []
  | Delay ms => [ms]
  end.

Definition delays (tr : trace) : list Z := flat_map delay_of tr.

Definition sum (l : list Z) : Z := fold_right Z.add 0 l.

Definition total_delay (tr : trace) : Z := sum (delays tr).

(** Number of writes that change the level of the pin, from [level]. *)

Fixpoint transitions (level : bool) (writes : list bool) : nat :=
  match writes with
  | [] => O
  | w :: rest => ((if eqb w level then 0 else 1) + transitions w rest)%nat
  end.

Definition lamp_after (before : bool) (tr : trace) : bool :=
  last (lamp_writes tr) before.

(** The lamp level during each suspension, and the visible segments: runs
    of suspensions at one level, merged. *)

Fixpoint timeline (level : bool) (tr : trace) : list (bool * Z) :=
  match tr with
  | [] => []
  | DigitalWrite pin v :: rest =>
    timeline (if pin =? Lamp then v else level) rest
  | Delay ms :: rest => (level, ms) :: timeline level rest
  end.

Fixpoint merge_segments (l : list (bool * Z)) : list (bool * Z) :=
  match l with
  | [] => []
  | (b, d) :: rest =>
    match merge_segments rest with
    | (b', d') :: rest' =>
      if eqb b b' then (b, d + d') :: rest' else (b, d) :: (b', d') :: rest'
    | [] => [(b, d)]
    end
  end.

Definition segments (before : bool) (tr : trace) : list (bool * Z) :=
  merge_segments (timeline before tr).

(** The write performed for the entry at index [i]: zero entries write
    nothing, and the writes of a pass are those of its non-zero entries in
    order. *)

Definition nonzero (v : Z) : bool := negb (v =? 0).

Definition count_nonzero (l : list Z) : nat := length (filter nonzero l).

Definition write_for (pattern : list Z) (i : nat) (tr : trace) : option bool :=
  match nth_error pattern i with
  | Some v =>
    if nonzero v
    then nth_error (lamp_writes tr) (count_nonzero (firstn i pattern))
    else None
  | None => None
  end.

(** What the double-fold sentence asks of a pattern: the entries at [i]
    and [j] are both written, at the same level. *)

Definition same_polarity (pattern : list Z) (pattern_length : Z)
    (i j : nat) : Prop :=
  exists tr b,
    blinkLamp pattern pattern_length = Some tr
    /\ write_for pattern i tr = Some b
    /\ write_for pattern j tr = Some b.

(** ** The loop of [blinkLamp] as a recursion over the entries *)

Fixpoint play (lampState : bool) (ticks : list Z) : trace :=
  match ticks with
  | [] => []
  | v :: rest =>
    let millisecs := millisecs_of v in
    if millisecs =? 0 then play (negb lampState) rest
    else
      DigitalWrite Lamp (negb lampState)
        :: DigitalWrite LED (negb lampState)
        :: Delay (to_ulong millisecs) :: play (negb lampState) rest
  end.

Definition tick_entry (v : Z) : Prop := is_byte v /\ v <> 0.

Definition bytes (n : nat) : list Z := map Z.of_nat (seq 0 n).

Fixpoint increasing (l : list Z) : bool :=
  match l with
  | a :: (b :: _) as rest => (a <? b) && increasing rest
  | _ => true
  end.

Definition pattern_eqb (p q : list Z) : bool :=
  if list_eq_dec Z.eq_dec p q then true else false.

Definition selection_check (code : Z) : bool :=
  match select code with
  | SteadyOn => code =? 0
  | Rhythm p =>
    nonzero code
    && match assoc code registry with
       | Some q => pattern_eqb p q
       | None => false
       end
  | Fallback =>
    nonzero code
    && match assoc code registry with
       | Some _ => false
       | None => true
       end
  end.

(** The strictly alternating write sequence of length [n] from [b]. *)

Fixpoint alternate (b : bool) (n : nat) : list bool :=
  match n with
  | O => []
  | S k => b :: alternate (negb b) k
  end.

Definition fallback_listed (c : Z) : bool :=
  match select c with
  | Fallback => existsb (Z.eqb c) legacy_unassigned
  | _ => true
  end.

Definition returns (r : option trace) : bool :=
  match r with
  | Some _ => true
  | None => false
  end.

(** ** [setup]

    The calls of [setup] in program order: the two outputs first, then
    the eight switch inputs, then a high write to each input to enable
    its internal pull-up. *)

Inductive pin_mode : Type :=
| INPUT
| OUTPUT.

Inductive setup_call : Type :=
| PinMode (pin : Z) (mode : pin_mode)
| SetupWrite (pin : Z) (level : bool).

Definition setup : list setup_call :=
  [PinMode Lamp OUTPUT;
   PinMode LED OUTPUT;
   PinMode Sw_A0 INPUT;
   PinMode Sw_A1 INPUT;
   PinMode Sw_A2 INPUT;
   PinMode Sw_A3 INPUT;
   PinMode Sw_B0 INPUT;
   PinMode Sw_B1 INPUT;
   PinMode Sw_B2 INPUT;
   PinMode Sw_B3 INPUT;
   SetupWrite Sw_A0 HIGH;
   SetupWrite Sw_A1 HIGH;
   SetupWrite Sw_A2 HIGH;
   SetupWrite Sw_A3 HIGH;
   SetupWrite Sw_B0 HIGH;
   SetupWrite Sw_B1 HIGH;
   SetupWrite Sw_B2 HIGH;
   SetupWrite Sw_B3 HIGH].

Definition pin_mode_eqb (a b : pin_mode) : bool :=
  match a, b with
  | INPUT, INPUT | OUTPUT, OUTPUT => true
  | _, _ => false
  end.

(** The mode the last [pinMode] call of [setup] gives a pin, if any. *)

Definition mode_after_setup (pin : Z) : option pin_mode :=
  fold_left
    (fun acc c =>
       match c with
       | PinMode p m => if p =? pin then Some m else acc
       | SetupWrite _ _ => acc
       end)
    setup None.

(** A pin has its pull-up on when [setup] writes it high after making it
    an input. *)

Fixpoint pulled_up_in (calls : list setup_call) (pin : Z) (is_input : bool)
    : bool :=
  match calls with
  | [] => false
  | PinMode p m :: rest =>
    pulled_up_in rest pin
      (if p =? pin then pin_mode_eqb m INPUT else is_input)
  | SetupWrite p level :: rest =>
    if (p =? pin) && is_input && eqb level HIGH then true
    else pulled_up_in rest pin is_input
  end.

Definition pulled_up (pin : Z) : bool := pulled_up_in setup pin false.

(** ** The switch pins and their weights *)

Definition switch_pins : list Z :=
  [Sw_A0; Sw_A1; Sw_A2; Sw_A3; Sw_B0; Sw_B1; Sw_B2; Sw_B3].

(** The pin levels that encode [code]: bit k of the code on the k-th
    switch pin. *)

Definition switches_for (code : Z) : Z -> bool :=
  fun pin => Z.testbit code (pin - Sw_A0).

(** ** Further observations on a trace *)

Definition led_write (e : event) : list bool :=
  match e with
  | DigitalWrite pin level => if pin =? LED then [level] else []
  | Delay _ => []
  end.

Definition led_writes (tr : trace) : list bool := flat_map led_write tr.

Definition written_pin (e : event) : list Z :=
  match e with
  | DigitalWrite pin _ => [pin]
  | Delay _ => []
  end.

Definition written_pins (tr : trace) : list Z := flat_map written_pin tr.

(** The running level after [n] entries, from [lampState]. *)

Definition toggled (n : nat) (lampState : bool) : bool :=
  if Nat.even n then lampState else negb lampState.

(** One control cycle for a given switch reading. *)

Definition cycle (setting : Z) : option trace := perform (select setting).

(** Checks run over every byte. *)

Definition cycle_starts_lit (setting : Z) : bool :=
  match cycle setting with
  | Some tr =>
    match lamp_writes tr with
    | first :: _ => eqb first HIGH
    | [] => false
    end
  | None => false
  end.

Definition cycle_duration_bounded (setting : Z) : bool :=
  match cycle setting with
  | Some tr =>
    (setting =? 0) || ((500 <=? total_delay tr) && (total_delay tr <=? 30000))
  | None => false
  end.


Definition cycle_mirrors (setting : Z) : bool :=
  match cycle setting with
  | Some tr =>
    if list_eq_dec bool_dec (led_writes tr) (lamp_writes tr) then true
    else false
  | None => false
  end.

Definition cycle_writes_outputs (setting : Z) : bool :=
  match cycle setting with
  | Some tr =>
    forallb
      (fun pin =>
         match mode_after_setup pin with
         | Some OUTPUT => true
         | _ => false
         end)
      (written_pins tr)
  | None => false
  end.

(** The settings whose cycle ends with the lamp on: the steady light and
    the five arrays with an odd number of entries. *)

Definition ends_lit : list Z := [0; 24; 60; 75; 142; 157].

Definition cycle_end_check (setting : Z) : bool :=
  match cycle setting with
  | Some tr =>
    eqb (lamp_after false tr) (existsb (Z.eqb setting) ends_lit)
    && eqb (lamp_after true tr) (existsb (Z.eqb setting) ends_lit)
  | None => false
  end.

(** * Properties *)

(** ** Machine arithmetic *)

Lemma to_int_small (z : Z) : INT_MIN <= z <= INT_MAX -> to_int z = z.
Proof.
  unfold to_int, INT_MIN, INT_MAX. intros Hz.
  rewrite Z.mod_small; lia.
Qed.

Lemma millisecs_of_byte (v : Z) : is_byte v -> millisecs_of v = v * 100.
Proof.
  unfold millisecs_of, is_byte. intros Hv.
  apply to_int_small. unfold INT_MIN, INT_MAX. lia.
Qed.

Lemma to_ulong_millisecs (v : Z) :
  is_byte v -> to_ulong (millisecs_of v) = v * 100.
Proof.
  intros Hv. rewrite (millisecs_of_byte v Hv).
  unfold to_ulong, is_byte in *. apply Z.mod_small. lia.
Qed.

Lemma millisecs_zero (v : Z) :
  is_byte v -> (millisecs_of v =? 0) = negb (nonzero v).
Proof.
  intros Hv. rewrite (millisecs_of_byte v Hv). unfold nonzero.
  rewrite negb_involutive.
  destruct (Z.eqb_spec v 0) as [-> | Hne]; [reflexivity|].
  apply Z.eqb_neq. lia.
Qed.

Lemma to_byte_small (z : Z) : is_byte z -> to_byte z = z.
Proof. unfold to_byte, is_byte. intros Hz. apply Z.mod_small. lia. Qed.

Lemma tick_entry_nonzero (v : Z) : tick_entry v -> nonzero v = true.
Proof.
  intros [_ Hne]. unfold nonzero. apply negb_true_iff, Z.eqb_neq, Hne.
Qed.

(** ** Checking a property on every byte *)

Lemma forall_bytes (P : Z -> bool) :
  forallb P (bytes 256) = true -> forall c, 0 <= c <= 255 -> P c = true.
Proof.
  intros Hall c Hc. rewrite forallb_forall in Hall. apply Hall.
  unfold bytes. apply in_map_iff. exists (Z.to_nat c). split; [lia|].
  apply in_seq. lia.
Qed.

(** ** [blinkLamp] runs the entries of the array in order *)

Lemma skipn_nth_error {A} (l : list A) (n : nat) (x : A) :
  nth_error l n = Some x -> skipn n l = x :: skipn (S n) l.
Proof.
  revert n. induction l as [|a l IH]; intros [|n] H; simpl in *;
    try discriminate.
  - now inversion H.
  - now apply IH.
Qed.

Lemma blinkLamp_loop_play (fuel : nat) :
  forall pattern pattern_length i lampState,
    0 <= i -> pattern_length <= 255 ->
    pattern_length <= sizeof pattern ->
    (Z.to_nat (pattern_length - i) < fuel)%nat ->
    blinkLamp_loop fuel pattern pattern_length i lampState
    = Some (play lampState
              (firstn (Z.to_nat (pattern_length - i))
                      (skipn (Z.to_nat i) pattern))).
Proof.
  induction fuel as [|fuel IH]; intros pattern len i st Hi Hlen Hsz Hfuel;
    [lia|].
  cbn [blinkLamp_loop]. destruct (Z.ltb_spec i len) as [Hlt | Hge].
  - assert (Hin : (Z.to_nat i < length pattern)%nat)
      by (unfold sizeof in Hsz; lia).
    destruct (nth_error pattern (Z.to_nat i)) as [v|] eqn:Hnth;
      [| apply nth_error_None in Hnth; lia ].
    rewrite (skipn_nth_error _ _ _ Hnth).
    replace (S (Z.to_nat i)) with (Z.to_nat (i + 1)) by lia.
    replace (Z.to_nat (len - i)) with (S (Z.to_nat (len - (i + 1)))) by lia.
    rewrite firstn_cons. cbn [play].
    rewrite (to_byte_small (i + 1)) by (unfold is_byte; lia).
    destruct (millisecs_of v =? 0).
    + apply IH; lia.
    + rewrite IH by lia. reflexivity.
  - replace (Z.to_nat (len - i)) with O by lia. reflexivity.
Qed.

Lemma blinkLamp_prefix (pattern : list Z) (pattern_length : Z) :
  0 <= pattern_length <= 255 -> pattern_length <= sizeof pattern ->
  blinkLamp pattern pattern_length
  = Some (play false (firstn (Z.to_nat pattern_length) pattern)).
Proof.
  intros Hlen Hsz. unfold blinkLamp.
  rewrite blinkLamp_loop_play by lia.
  simpl skipn. now rewrite Z.sub_0_r.
Qed.

Lemma blinkLamp_exact (pattern : list Z) (pattern_length : Z) :
  is_byte pattern_length -> sizeof pattern = pattern_length ->
  blinkLamp pattern pattern_length = Some (play false pattern).
Proof.
  intros Hlen Hsz. unfold is_byte in Hlen.
  rewrite blinkLamp_prefix by lia.
  rewrite <- Hsz. unfold sizeof. now rewrite Nat2Z.id, firstn_all.
Qed.

(** ** Writes and suspensions of a pass *)

Lemma alternate_even (n : nat) :
  forall k, alternate (Nat.even k) n = map Nat.even (seq k n).
Proof.
  induction n as [|n IH]; intros k; simpl; [reflexivity|].
  f_equal. rewrite <- IH. f_equal.
  rewrite Nat.even_succ, <- Nat.negb_even. reflexivity.
Qed.

Lemma play_step (lampState : bool) (v : Z) (rest : list Z) :
  is_byte v ->
  play lampState (v :: rest)
  = (if nonzero v
     then [DigitalWrite Lamp (negb lampState);
           DigitalWrite LED (negb lampState); Delay (v * 100)]
     else [])
    ++ play (negb lampState) rest.
Proof.
  intros Hv. simpl.
  rewrite (millisecs_zero v Hv), (to_ulong_millisecs v Hv).
  now destruct (nonzero v).
Qed.

Lemma lamp_writes_app (a b : trace) :
  lamp_writes (a ++ b) = lamp_writes a ++ lamp_writes b.
Proof. unfold lamp_writes. apply flat_map_app. Qed.

Lemma delays_app (a b : trace) : delays (a ++ b) = delays a ++ delays b.
Proof. unfold delays. apply flat_map_app. Qed.

Lemma lamp_writes_play_ticks (ticks : list Z) :
  Forall tick_entry ticks ->
  forall lampState,
    lamp_writes (play lampState ticks)
    = alternate (negb lampState) (length ticks).
Proof.
  induction 1 as [|v rest Hv _ IH]; intros st; [reflexivity|].
  rewrite play_step by apply Hv.
  rewrite (tick_entry_nonzero v Hv), lamp_writes_app, IH. reflexivity.
Qed.

Lemma delays_play_ticks (ticks : list Z) :
  Forall tick_entry ticks ->
  forall lampState,
    delays (play lampState ticks) = map (fun v => v * 100) ticks.
Proof.
  induction 1 as [|v rest Hv _ IH]; intros st; [reflexivity|].
  rewrite play_step by apply Hv.
  rewrite (tick_entry_nonzero v Hv), delays_app, IH. reflexivity.
Qed.

Lemma sum_scaled (l : list Z) : sum (map (fun v => v * 100) l) = sum l * 100.
Proof.
  induction l as [|v l IH]; simpl; [reflexivity|].
  unfold sum in *. simpl. rewrite IH. lia.
Qed.

Lemma transitions_alternate (n : nat) :
  forall b, transitions (negb b) (alternate b n) = n.
Proof.
  induction n as [|n IH]; intros b; simpl; [reflexivity|].
  specialize (IH (negb b)). rewrite negb_involutive in IH.
  rewrite IH. now destruct b.
Qed.

Lemma last_alternate (n : nat) :
  forall b d,
    last (alternate b (S n)) d = if Nat.even n then b else negb b.
Proof.
  induction n as [|n IH]; intros b d; [reflexivity|].
  change (alternate b (S (S n))) with (b :: alternate (negb b) (S n)).
  change (last (b :: alternate (negb b) (S n)) d)
    with (last (alternate (negb b) (S n)) d).
  rewrite IH, Nat.even_succ, <- Nat.negb_even.
  destruct (Nat.even n), b; reflexivity.
Qed.

Lemma lamp_writes_entry (b : bool) (ms : Z) :
  lamp_writes [DigitalWrite Lamp b; DigitalWrite LED b; Delay ms] = [b].
Proof. reflexivity. Qed.

Lemma write_for_play (pattern : list Z) :
  Forall is_byte pattern ->
  forall i v lampState,
    nth_error pattern i = Some v -> nonzero v = true ->
    nth_error (lamp_writes (play lampState pattern))
              (count_nonzero (firstn i pattern))
    = Some (if Nat.even i then negb lampState else lampState).
Proof.
  induction 1 as [|v0 rest Hv0 _ IH]; intros [|i] v st Hnth Hv;
    try discriminate.
  - injection Hnth as ->.
    rewrite play_step, Hv by exact Hv0. reflexivity.
  - rewrite play_step, lamp_writes_app by exact Hv0.
    rewrite firstn_cons. unfold count_nonzero. cbn [filter].
    specialize (IH i v (negb st) Hnth Hv). unfold count_nonzero in IH.
    rewrite negb_involutive in IH.
    rewrite Nat.even_succ, <- Nat.negb_even.
    destruct (nonzero v0);
      [ rewrite lamp_writes_entry | change (lamp_writes []) with (@nil bool) ];
      cbn [app length nth_error]; rewrite IH; now destruct (Nat.even i).
Qed.

Lemma write_for_parity (pattern : list Z) (i : nat) (v : Z) :
  Forall is_byte pattern ->
  nth_error pattern i = Some v -> v <> 0 ->
  write_for pattern i (play false pattern) = Some (Nat.even i).
Proof.
  intros Hb Hnth Hv.
  assert (Hnz : nonzero v = true)
    by (unfold nonzero; now apply negb_true_iff, Z.eqb_neq).
  unfold write_for. rewrite Hnth, Hnz.
  rewrite (write_for_play pattern Hb i v false Hnth Hnz).
  now destruct (Nat.even i).
Qed.

Lemma Forall_tick_entry_byte (l : list Z) :
  Forall tick_entry l -> Forall is_byte l.
Proof. apply Forall_impl. now intros v [Hv _]. Qed.

(** ** The registry *)

Lemma assoc_In (k : Z) (l : list (Z * list Z)) (p : list Z) :
  assoc k l = Some p -> In (k, p) l.
Proof.
  induction l as [|[k' q] l IH]; simpl; [discriminate|].
  destruct (Z.eqb_spec k k') as [-> | Hne]; intros H.
  - injection H as ->. now left.
  - right. now apply IH.
Qed.

Lemma assoc_None (k : Z) (l : list (Z * list Z)) :
  assoc k l = None -> ~ In k (map fst l).
Proof.
  induction l as [|[k' q] l IH]; simpl; [tauto|].
  destruct (Z.eqb_spec k k') as [-> | Hne]; [discriminate|].
  intros H [Heq | Hin]; [congruence | now apply IH].
Qed.

Lemma In_assoc (k : Z) (l : list (Z * list Z)) (p : list Z) :
  NoDup (map fst l) -> In (k, p) l -> assoc k l = Some p.
Proof.
  induction l as [|[k' q] l IH]; simpl; [tauto|].
  intros Hnd [Heq | Hin].
  - injection Heq as -> ->. now rewrite Z.eqb_refl.
  - inversion Hnd as [|? ? Hnotin Hnd']; subst.
    destruct (Z.eqb_spec k k') as [-> | Hne].
    + exfalso. apply Hnotin. apply in_map_iff. now exists (k', p).
    + now apply IH.
Qed.

Lemma increasing_lower (l : list Z) :
  forall a, increasing (a :: l) = true -> forall b, In b l -> a < b.
Proof.
  induction l as [|c l IH]; intros a Hinc b Hin; [destruct Hin|].
  cbn [increasing] in Hinc. apply andb_true_iff in Hinc as [Hac Hrest].
  apply Z.ltb_lt in Hac. destruct Hin as [<- | Hin]; [exact Hac|].
  specialize (IH c Hrest b Hin). lia.
Qed.

Lemma increasing_NoDup (l : list Z) : increasing l = true -> NoDup l.
Proof.
  induction l as [|a l IH]; intros Hinc; constructor.
  - intros Hin. pose proof (increasing_lower l a Hinc a Hin). lia.
  - apply IH. destruct l as [|b l]; [reflexivity|].
    cbn [increasing] in Hinc. now apply andb_true_iff in Hinc as [_ Hrest].
Qed.

Lemma case_labels_NoDup : NoDup case_labels.
Proof. apply increasing_NoDup. vm_compute. reflexivity. Qed.

Lemma pattern_eqb_eq (p q : list Z) : pattern_eqb p q = true -> p = q.
Proof.
  unfold pattern_eqb. now destruct (list_eq_dec Z.eq_dec p q).
Qed.

Lemma selection_check_all (code : Z) :
  0 <= code <= 255 -> selection_check code = true.
Proof. apply forall_bytes. vm_compute. reflexivity. Qed.

Lemma nonzero_neq (v : Z) : nonzero v = true <-> v <> 0.
Proof. unfold nonzero. rewrite negb_true_iff. apply Z.eqb_neq. Qed.

Lemma select_resolves (code : Z) :
  0 <= code <= 255 -> resolves code (select code).
Proof.
  intros Hc. pose proof (selection_check_all code Hc) as Hchk.
  unfold selection_check in Hchk.
  destruct (select code) as [|p|].
  - apply Z.eqb_eq in Hchk as ->. constructor.
  - apply andb_true_iff in Hchk as [Hnz Hq]. apply nonzero_neq in Hnz.
    destruct (assoc code registry) as [q|] eqn:Ha; [|discriminate].
    apply pattern_eqb_eq in Hq as ->.
    constructor; [exact Hnz | now apply assoc_In].
  - apply andb_true_iff in Hchk as [Hnz Hq]. apply nonzero_neq in Hnz.
    destruct (assoc code registry) eqn:Ha; [discriminate|].
    constructor; [exact Hnz | now apply assoc_None].
Qed.

Lemma resolves_functional (code : Z) (o1 o2 : selection) :
  resolves code o1 -> resolves code o2 -> o1 = o2.
Proof.
  intros H1 H2.
  destruct H1 as [|c p Hne Hin|c Hne Hnot];
    inversion H2 as [|c' q Hne' Hin'|c' Hne' Hnot']; subst;
    try reflexivity; try congruence.
  - pose proof (In_assoc _ _ _ case_labels_NoDup Hin) as Ha.
    pose proof (In_assoc _ _ _ case_labels_NoDup Hin') as Ha'.
    congruence.
  - exfalso. apply Hnot'. apply in_map_iff. now exists (c, p).
  - exfalso. apply Hnot. apply in_map_iff. now exists (c, q).
Qed.

Lemma perform_returns (code : Z) :
  0 <= code <= 255 -> returns (perform (select code)) = true.
Proof.
  apply (forall_bytes (fun c => returns (perform (select c)))).
  vm_compute. reflexivity.
Qed.

Lemma readSwitches_byte (digitalRead : Z -> bool) :
  is_byte (readSwitches digitalRead).
Proof.
  unfold readSwitches, is_byte, HIGH.
  destruct (digitalRead Sw_A0), (digitalRead Sw_A1), (digitalRead Sw_A2),
    (digitalRead Sw_A3), (digitalRead Sw_B0), (digitalRead Sw_B1),
    (digitalRead Sw_B2), (digitalRead Sw_B3); vm_compute; split; discriminate.
Qed.

(** * The claims *)

(** C1. For every selector code in 0..255 the [switch] of [loop] resolves
    the code to exactly one outcome: the steady light for code 0, the
    array of its [case] for an assigned code, the fallback for a code
    without a [case].  The resolution is total (the chosen branch returns)
    and depends on nothing but the code read from the switches. *)
Theorem select_total_deterministic (code : Z) :
  0 <= code <= 255 ->
  resolves code (select code)
  /\ (forall o, resolves code o -> o = select code)
  /\ (exists tr, perform (select code) = Some tr)
  /\ (forall digitalRead,
        readSwitches digitalRead = code ->
        loop digitalRead = perform (select code)).
Proof.
  intros Hc. split; [now apply select_resolves|]. split; [|split].
  - intros o Ho. apply (resolves_functional code); [exact Ho|].
    now apply select_resolves.
  - pose proof (perform_returns code Hc) as Hr.
    destruct (perform (select code)) as [tr|]; [now exists tr | discriminate].
  - intros digitalRead Hread. unfold loop. now rewrite Hread.
Qed.

Lemma select_total_deterministic_witness :
  resolves 40 (select 40)
  /\ (forall o, resolves 40 o -> o = select 40)
  /\ (exists tr, perform (select 40) = Some tr)
  /\ (forall digitalRead,
        readSwitches digitalRead = 40 ->
        loop digitalRead = perform (select 40)).
Proof. apply (select_total_deterministic 40). lia. Defined.

(** C2. Playing [5; 0; 5; 20] shows one on-segment of 1000 ms followed by
    one off-segment of 2000 ms: the two 5-tick entries around the zero are
    both written on, with no off write between them. *)
Theorem fold_marker_merges :
  exists tr,
    blinkLamp [5; 0; 5; 20] (to_byte (sizeof [5; 0; 5; 20])) = Some tr
    /\ lamp_writes tr = [true; true; false]
    /\ delays tr = [500; 500; 2000]
    /\ forall before, segments before tr = [(true, 1000); (false, 2000)].
Proof.
  eexists. split; [vm_compute; reflexivity|].
  split; [reflexivity|]. split; [reflexivity|].
  intros before. reflexivity.
Qed.

(** C3. A pattern of N entries, none of them zero, summing to S ticks:
    one pass of [blinkLamp] returns after exactly N writes to the lamp,
    each changing its level, made in the order of the entries, and the
    suspensions are those of the entries, S * 100 ms in total. *)
Theorem fold_free_pass (pattern : list Z) (pattern_length : Z) :
  is_byte pattern_length ->
  sizeof pattern = pattern_length ->
  Forall tick_entry pattern ->
  exists tr,
    blinkLamp pattern pattern_length = Some tr
    /\ length (lamp_writes tr) = length pattern
    /\ transitions false (lamp_writes tr) = length pattern
    /\ delays tr = map (fun v => v * 100) pattern
    /\ total_delay tr = sum pattern * 100.
Proof.
  intros Hlen Hsz Hticks. exists (play false pattern).
  split; [now apply blinkLamp_exact|].
  rewrite (lamp_writes_play_ticks pattern Hticks false).
  unfold total_delay. rewrite (delays_play_ticks pattern Hticks false).
  repeat split.
  - generalize (length pattern) (negb false).
    induction n as [|n IH]; intros b; simpl; [reflexivity | now rewrite IH].
  - apply (transitions_alternate (length pattern) (negb false)).
  - apply sum_scaled.
Qed.

Lemma fold_free_pass_witness :
  exists tr,
    blinkLamp Code07 4 = Some tr
    /\ length (lamp_writes tr) = length Code07
    /\ transitions false (lamp_writes tr) = length Code07
    /\ delays tr = map (fun v => v * 100) Code07
    /\ total_delay tr = sum Code07 * 100.
Proof.
  apply (fold_free_pass Code07 4).
  - unfold is_byte. lia.
  - reflexivity.
  - unfold Code07, tick_entry, is_byte. repeat constructor; lia.
Defined.

(** C4, as the code has it.  Every entry, zero or not, toggles the running
    level once, so two zero entries in a row cancel: in
    [.. N; 0; 0; M ..] with N and M non-zero the entry M is written at the
    level opposite to the one written for N. *)
Theorem double_fold_cancels (pre post : list Z) (N M : Z) :
  let pattern := pre ++ [N; 0; 0; M] ++ post in
  forall pattern_length : Z,
  is_byte pattern_length ->
  sizeof pattern = pattern_length ->
  Forall is_byte pattern ->
  N <> 0 -> M <> 0 ->
  exists tr,
    blinkLamp pattern pattern_length = Some tr
    /\ write_for pattern (length pre) tr = Some (Nat.even (length pre))
    /\ write_for pattern (length pre + 3) tr
       = Some (negb (Nat.even (length pre)))
    /\ ~ same_polarity pattern pattern_length (length pre) (length pre + 3).
Proof.
  intros pattern len Hlen Hsz Hb HN HM.
  assert (HnN : nth_error pattern (length pre) = Some N).
  { unfold pattern. rewrite nth_error_app2 by lia.
    now rewrite Nat.sub_diag. }
  assert (HnM : nth_error pattern (length pre + 3) = Some M).
  { unfold pattern. rewrite nth_error_app2 by lia.
    now replace (length pre + 3 - length pre)%nat with 3%nat by lia. }
  assert (Hrun := blinkLamp_exact pattern len Hlen Hsz).
  assert (HwN := write_for_parity pattern _ N Hb HnN HN).
  assert (HwM := write_for_parity pattern _ M Hb HnM HM).
  replace (Nat.even (length pre + 3)) with (negb (Nat.even (length pre)))
    in HwM
    by (rewrite Nat.even_add; now destruct (Nat.even (length pre))).
  exists (play false pattern). repeat split; try assumption.
  intros (tr & b & Htr & Hi & Hj).
  rewrite Hrun in Htr. injection Htr as <-.
  rewrite HwN in Hi. rewrite HwM in Hj.
  destruct (Nat.even (length pre)), b; discriminate.
Qed.

Lemma double_fold_cancels_witness :
  exists tr,
    blinkLamp [7; 5; 0; 0; 9; 3] 6 = Some tr
    /\ write_for [7; 5; 0; 0; 9; 3] 1 tr = Some false
    /\ write_for [7; 5; 0; 0; 9; 3] 4 tr = Some true
    /\ ~ same_polarity [7; 5; 0; 0; 9; 3] 6 1 4.
Proof.
  apply (double_fold_cancels [7] [3] 5 9 6).
  - unfold is_byte. lia.
  - reflexivity.
  - unfold is_byte. repeat constructor; lia.
  - discriminate.
  - discriminate.
Defined.

(** C4, as stated, fails on [5; 0; 0; 5]: the first 5 is written on and
    the second 5 is written off. *)
Lemma double_fold_counterexample :
  blinkLamp [5; 0; 0; 5] 4
  = Some [DigitalWrite Lamp true; DigitalWrite LED true; Delay 500;
          DigitalWrite Lamp false; DigitalWrite LED false; Delay 500]
  /\ write_for [5; 0; 0; 5] 0
       [DigitalWrite Lamp true; DigitalWrite LED true; Delay 500;
        DigitalWrite Lamp false; DigitalWrite LED false; Delay 500]
     = Some true
  /\ write_for [5; 0; 0; 5] 3
       [DigitalWrite Lamp true; DigitalWrite LED true; Delay 500;
        DigitalWrite Lamp false; DigitalWrite LED false; Delay 500]
     = Some false
  /\ ~ same_polarity [5; 0; 0; 5] 4 0 3.
Proof.
  split; [vm_compute; reflexivity|].
  split; [reflexivity|]. split; [reflexivity|].
  intros (tr & b & Htr & Hi & Hj).
  vm_compute in Htr. injection Htr as <-.
  vm_compute in Hi. vm_compute in Hj. congruence.
Qed.

(** C5, as the code has it.  Given a length of 0, [blinkLamp] returns at
    once: nothing is written to the lamp, nothing is suspended, and the
    lamp keeps the level it had. *)
Theorem empty_pattern_does_nothing (pattern : list Z) :
  blinkLamp pattern 0 = Some []
  /\ blinkLamp [] (to_byte (sizeof [])) = Some []
  /\ lamp_writes [] = []
  /\ total_delay [] = 0
  /\ forall before, lamp_after before [] = before.
Proof.
  split; [reflexivity|]. split; [reflexivity|].
  split; [reflexivity|]. split; [reflexivity|].
  intros before. reflexivity.
Qed.

(** C5, as stated, fails on the empty array: the pass produces no event
    at all, while a pass of the fallback array writes the lamp 22 times. *)
Lemma empty_pattern_counterexample :
  blinkLamp [] (to_byte (sizeof [])) = Some []
  /\ (exists tr,
        blinkLamp CodeFF (to_byte (sizeof CodeFF)) = Some tr
        /\ length (lamp_writes tr) = 22%nat)
  /\ blinkLamp [] (to_byte (sizeof []))
     <> blinkLamp CodeFF (to_byte (sizeof CodeFF)).
Proof.
  split; [reflexivity|]. split.
  - eexists. split; [vm_compute; reflexivity | reflexivity].
  - vm_compute. discriminate.
Qed.

(** C6. With the switches reading 0 the cycle writes the lamp (and the
    LED) high directly: no suspension takes place, and over any number of
    such cycles every write is high, so the lamp, once on, never changes
    level.  The steady light is a branch of its own, not a pattern handed
    to [blinkLamp]. *)
Theorem steady_light (digitalRead : Z -> bool) :
  readSwitches digitalRead = 0 ->
  select 0 = SteadyOn
  /\ loop digitalRead = Some [DigitalWrite Lamp HIGH; DigitalWrite LED HIGH]
  /\ forall n,
       exists tr,
         run_cycles (repeat 0 n) = Some tr
         /\ lamp_writes tr = repeat HIGH n
         /\ delays tr = []
         /\ timeline HIGH tr = []
         /\ transitions HIGH (lamp_writes tr) = O.
Proof.
  intros Hread. split; [reflexivity|]. split.
  - unfold loop. rewrite Hread. reflexivity.
  - induction n as [|n (tr & Hrun & Hw & Hd & Ht & Hc)].
    + exists []. repeat split.
    + exists ([DigitalWrite Lamp HIGH; DigitalWrite LED HIGH] ++ tr).
      split; [|split; [|split; [|split]]].
      * cbn [repeat run_cycles]. change (perform (select 0))
          with (Some [DigitalWrite Lamp HIGH; DigitalWrite LED HIGH]).
        cbv iota beta. rewrite Hrun. reflexivity.
      * rewrite lamp_writes_app, Hw. reflexivity.
      * rewrite delays_app, Hd. reflexivity.
      * exact Ht.
      * rewrite lamp_writes_app, Hw. rewrite Hw in Hc.
        change (transitions HIGH (HIGH :: repeat HIGH n) = O).
        cbn [transitions]. exact Hc.
Qed.

Lemma steady_light_witness :
  select 0 = SteadyOn
  /\ loop (fun _ => LOW)
     = Some [DigitalWrite Lamp HIGH; DigitalWrite LED HIGH]
  /\ forall n,
       exists tr,
         run_cycles (repeat 0 n) = Some tr
         /\ lamp_writes tr = repeat HIGH n
         /\ delays tr = []
         /\ timeline HIGH tr = []
         /\ transitions HIGH (lamp_writes tr) = O.
Proof. apply (steady_light (fun _ => LOW)). reflexivity. Defined.

(** C7. Every code without a [case] takes the [default] branch, which
    plays [CodeFF]; these codes are the seventeen the legacy table lists.
    [CodeFF] has an even number of entries, all of them bytes, and differs
    from the array of every [case]. *)
Theorem unassigned_codes_fall_back (code : Z) :
  0 <= code <= 255 ->
  unassigned code ->
  select code = Fallback
  /\ perform (select code) = blinkLamp CodeFF (to_byte (sizeof CodeFF))
  /\ In code legacy_unassigned
  /\ Forall (fun c => unassigned c /\ select c = Fallback) legacy_unassigned
  /\ Nat.even (length CodeFF) = true
  /\ Forall is_byte CodeFF
  /\ (forall c pattern, In (c, pattern) registry -> pattern <> CodeFF)
  /\ (forall c pattern,
        0 <= c <= 255 -> select c = Rhythm pattern -> pattern <> CodeFF).
Proof.
  intros Hc [Hne Hnot].
  assert (Hsel : select code = Fallback).
  { pose proof (select_resolves code Hc) as Hr.
    inversion Hr as [|c p _ Hin|c _ _]; subst; try congruence.
    exfalso. apply Hnot. apply in_map_iff. now exists (code, p). }
  assert (Hreg : forall c pattern,
             In (c, pattern) registry -> pattern <> CodeFF).
  { assert (Hall : forallb (fun cp => negb (pattern_eqb (snd cp) CodeFF))
                     registry = true) by (vm_compute; reflexivity).
    rewrite forallb_forall in Hall. intros c p Hin Heq.
    specialize (Hall (c, p) Hin). cbn [snd] in Hall. subst p.
    unfold pattern_eqb in Hall.
    now destruct (list_eq_dec Z.eq_dec CodeFF CodeFF). }
  split; [exact Hsel|]. split; [now rewrite Hsel|]. split.
  { pose proof (forall_bytes fallback_listed) as Hb.
    specialize (Hb ltac:(vm_compute; reflexivity) code Hc).
    unfold fallback_listed in Hb. rewrite Hsel in Hb.
    apply existsb_exists in Hb as (c & Hin & Heq).
    apply Z.eqb_eq in Heq. now subst c. }
  split.
  { unfold legacy_unassigned.
    repeat (constructor;
            [ split; [ split; [ discriminate
                              | apply assoc_None; vm_compute; reflexivity ]
                     | reflexivity ] | ]).
    constructor. }
  split; [reflexivity|]. split.
  { unfold CodeFF, is_byte. repeat constructor; lia. }
  split; [exact Hreg|].
  intros c p Hcb Hselc.
  pose proof (select_resolves c Hcb) as Hr. rewrite Hselc in Hr.
  inversion Hr; subst. now apply (Hreg c).
Qed.

Lemma unassigned_codes_fall_back_witness :
  select 39 = Fallback
  /\ perform (select 39) = blinkLamp CodeFF (to_byte (sizeof CodeFF))
  /\ In 39 legacy_unassigned
  /\ Forall (fun c => unassigned c /\ select c = Fallback) legacy_unassigned
  /\ Nat.even (length CodeFF) = true
  /\ Forall is_byte CodeFF
  /\ (forall c pattern, In (c, pattern) registry -> pattern <> CodeFF)
  /\ (forall c pattern,
        0 <= c <= 255 -> select c = Rhythm pattern -> pattern <> CodeFF).
Proof.
  apply (unassigned_codes_fall_back 39).
  - lia.
  - split; [discriminate | apply assoc_None; reflexivity].
Defined.

(** C8. With the switches reading 1 the cycle plays [Code01] = [8; 32]:
    lamp on, 800 ms, lamp off, 3200 ms, and the pass is over: one on
    segment and one off segment, 4000 ms in all. *)
Theorem code_1_end_to_end (digitalRead : Z -> bool) :
  readSwitches digitalRead = 1 ->
  select 1 = Rhythm [8; 32]
  /\ exists tr,
       loop digitalRead = Some tr
       /\ tr = [DigitalWrite Lamp true; DigitalWrite LED true; Delay 800;
                DigitalWrite Lamp false; DigitalWrite LED false; Delay 3200]
       /\ (forall before, segments before tr = [(true, 800); (false, 3200)])
       /\ transitions false (lamp_writes tr) = 2%nat
       /\ total_delay tr = 4000.
Proof.
  intros Hread. split; [reflexivity|].
  eexists. split; [|split; [reflexivity|]].
  - unfold loop. rewrite Hread. vm_compute. reflexivity.
  - split; [intros before; reflexivity|]. split; reflexivity.
Qed.

Lemma code_1_end_to_end_witness :
  select 1 = Rhythm [8; 32]
  /\ exists tr,
       loop (fun pin => pin =? Sw_A0) = Some tr
       /\ tr = [DigitalWrite Lamp true; DigitalWrite LED true; Delay 800;
                DigitalWrite Lamp false; DigitalWrite LED false; Delay 3200]
       /\ (forall before, segments before tr = [(true, 800); (false, 3200)])
       /\ transitions false (lamp_writes tr) = 2%nat
       /\ total_delay tr = 4000.
Proof. apply (code_1_end_to_end (fun pin => pin =? Sw_A0)). reflexivity. Defined.

(** C9. For every byte v the suspension computed for an entry is exactly
    v * 100 ms, at most 25500 ms: the product stays inside the 16-bit
    signed range of [int], and widening it to the [unsigned long] that
    [delay] takes leaves it unchanged. *)
Theorem millisecs_exact (v : Z) :
  is_byte v ->
  millisecs_of v = v * 100
  /\ 0 <= millisecs_of v <= 25500
  /\ INT_MIN <= v * 100 <= INT_MAX
  /\ to_ulong (millisecs_of v) = v * 100.
Proof.
  intros Hv. rewrite (to_ulong_millisecs v Hv), (millisecs_of_byte v Hv).
  unfold is_byte, INT_MIN, INT_MAX in *. lia.
Qed.

Lemma millisecs_exact_witness :
  millisecs_of 255 = 255 * 100
  /\ 0 <= millisecs_of 255 <= 25500
  /\ INT_MIN <= 255 * 100 <= INT_MAX
  /\ to_ulong (millisecs_of 255) = 255 * 100.
Proof. apply (millisecs_exact 255). unfold is_byte. lia. Defined.

(** C10. In a pass over a pattern without zero entries the writes to the
    lamp alternate, starting with on: the write for the entry at index i
    is on exactly when i is even.  After a pattern of even length the
    running level is off again, and so is the lamp once anything has been
    written. *)
Theorem fold_free_writes_alternate (pattern : list Z) (pattern_length : Z) :
  is_byte pattern_length ->
  sizeof pattern = pattern_length ->
  Forall tick_entry pattern ->
  exists tr,
    blinkLamp pattern pattern_length = Some tr
    /\ lamp_writes tr = map Nat.even (seq 0 (length pattern))
    /\ (forall i, (i < length pattern)%nat ->
                  write_for pattern i tr = Some (Nat.even i))
    /\ (Nat.even (length pattern) = true ->
        lamp_after false tr = false
        /\ (pattern <> [] -> forall before, lamp_after before tr = false)).
Proof.
  intros Hlen Hsz Hticks. exists (play false pattern).
  split; [now apply blinkLamp_exact|].
  assert (Hw : lamp_writes (play false pattern)
               = alternate true (length pattern))
    by apply (lamp_writes_play_ticks pattern Hticks false).
  split; [|split].
  - rewrite Hw. apply (alternate_even (length pattern) 0).
  - intros i Hi.
    destruct (nth_error pattern i) as [v|] eqn:Hnth;
      [| apply nth_error_None in Hnth; lia ].
    apply (write_for_parity pattern i v);
      [now apply Forall_tick_entry_byte | exact Hnth |].
    rewrite Forall_forall in Hticks.
    now apply (Hticks v), (nth_error_In pattern i).
  - intros Heven. unfold lamp_after. rewrite Hw.
    destruct (length pattern) as [|n] eqn:Hn.
    + split; [reflexivity|]. intros Hne. destruct pattern; [easy | discriminate].
    + assert (Hodd : Nat.even n = false)
        by (rewrite Nat.even_succ, <- Nat.negb_even in Heven;
            now apply negb_true_iff).
      split; [|intros _ before]; rewrite last_alternate, Hodd; reflexivity.
Qed.

Lemma fold_free_writes_alternate_witness :
  exists tr,
    blinkLamp Code0A 4 = Some tr
    /\ lamp_writes tr = map Nat.even (seq 0 (length Code0A))
    /\ (forall i, (i < length Code0A)%nat ->
                  write_for Code0A i tr = Some (Nat.even i))
    /\ (Nat.even (length Code0A) = true ->
        lamp_after false tr = false
        /\ (Code0A <> [] -> forall before, lamp_after before tr = false)).
Proof.
  apply (fold_free_writes_alternate Code0A 4).
  - unfold is_byte. lia.
  - reflexivity.
  - unfold Code0A, tick_entry, is_byte. repeat constructor; lia.
Defined.

(** * Further properties of the sketch *)

(** ** [readSwitches] *)

Lemma readSwitches_weights (digitalRead : Z -> bool) :
  readSwitches digitalRead
  = Z.b2z (digitalRead Sw_A0) + 2 * Z.b2z (digitalRead Sw_A1)
    + 4 * Z.b2z (digitalRead Sw_A2) + 8 * Z.b2z (digitalRead Sw_A3)
    + 16 * Z.b2z (digitalRead Sw_B0) + 32 * Z.b2z (digitalRead Sw_B1)
    + 64 * Z.b2z (digitalRead Sw_B2) + 128 * Z.b2z (digitalRead Sw_B3).
Proof.
  unfold readSwitches, HIGH.
  destruct (digitalRead Sw_A0), (digitalRead Sw_A1), (digitalRead Sw_A2),
    (digitalRead Sw_A3), (digitalRead Sw_B0), (digitalRead Sw_B1),
    (digitalRead Sw_B2), (digitalRead Sw_B3); reflexivity.
Qed.

Lemma weights_testbit (a0 a1 a2 a3 b0 b1 b2 b3 : bool) (k : Z) :
  0 <= k <= 7 ->
  Z.testbit
    (Z.b2z a0 + 2 * Z.b2z a1 + 4 * Z.b2z a2 + 8 * Z.b2z a3
     + 16 * Z.b2z b0 + 32 * Z.b2z b1 + 64 * Z.b2z b2 + 128 * Z.b2z b3) k
  = nth (Z.to_nat k) [a0; a1; a2; a3; b0; b1; b2; b3] false.
Proof.
  intros Hk.
  assert (Hcases : k = 0 \/ k = 1 \/ k = 2 \/ k = 3 \/ k = 4 \/ k = 5
                   \/ k = 6 \/ k = 7) by lia.
  destruct a0, a1, a2, a3, b0, b1, b2, b3;
    repeat (destruct Hcases as [-> | Hcases]; [reflexivity|]);
    subst k; reflexivity.
Qed.

Lemma switch_pin_level (digitalRead : Z -> bool) (k : Z) :
  0 <= k <= 7 ->
  nth (Z.to_nat k) (map digitalRead switch_pins) false
  = digitalRead (Sw_A0 + k).
Proof.
  intros Hk.
  assert (Hcases : k = 0 \/ k = 1 \/ k = 2 \/ k = 3 \/ k = 4 \/ k = 5
                   \/ k = 6 \/ k = 7) by lia.
  repeat (destruct Hcases as [-> | Hcases]; [reflexivity|]).
  subst k; reflexivity.
Qed.

Lemma In_switch_pins (pin : Z) :
  In pin switch_pins <-> Sw_A0 <= pin <= Sw_B3.
Proof.
  unfold switch_pins, Sw_A0, Sw_A1, Sw_A2, Sw_A3, Sw_B0, Sw_B1, Sw_B2, Sw_B3.
  simpl. lia.
Qed.

(** X1. The byte [readSwitches] returns is the binary number on the eight
    switch pins: bit k of the result is the level read on the k-th pin,
    [Sw_A0] being bit 0 and [Sw_B3] bit 7, and the byte sum never wraps. *)
Theorem readSwitches_bits (digitalRead : Z -> bool) (k : Z) :
  0 <= k <= 7 ->
  Z.testbit (readSwitches digitalRead) k = digitalRead (Sw_A0 + k)
  /\ is_byte (readSwitches digitalRead).
Proof.
  intros Hk. split; [|apply readSwitches_byte].
  rewrite (readSwitches_weights digitalRead).
  rewrite (weights_testbit _ _ _ _ _ _ _ _ k Hk).
  apply (switch_pin_level digitalRead k Hk).
Qed.

Lemma readSwitches_bits_witness :
  Z.testbit (readSwitches (fun pin => pin =? Sw_B1)) 5
  = (fun pin => pin =? Sw_B1) (Sw_A0 + 5)
  /\ is_byte (readSwitches (fun pin => pin =? Sw_B1)).
Proof. apply (readSwitches_bits (fun pin => pin =? Sw_B1) 5). lia. Defined.

(** X2. Setting the switch pins to the bits of a byte and reading them
    back gives that byte: every code 0..255 can be dialled, by exactly
    that pin setting. *)
Theorem readSwitches_switches_for (code : Z) :
  is_byte code -> readSwitches (switches_for code) = code.
Proof.
  intros Hc. apply Z.eqb_eq.
  apply (forall_bytes (fun c => readSwitches (switches_for c) =? c));
    [vm_compute; reflexivity | exact Hc].
Qed.

Lemma readSwitches_switches_for_witness :
  readSwitches (switches_for 111) = 111.
Proof. apply (readSwitches_switches_for 111). unfold is_byte. lia. Defined.

Lemma readSwitches_agree (dr1 dr2 : Z -> bool) :
  (forall pin, In pin switch_pins -> dr1 pin = dr2 pin) ->
  readSwitches dr1 = readSwitches dr2.
Proof.
  intros Hagree. unfold readSwitches.
  rewrite !(Hagree Sw_A0), !(Hagree Sw_A1), !(Hagree Sw_A2),
    !(Hagree Sw_A3), !(Hagree Sw_B0), !(Hagree Sw_B1), !(Hagree Sw_B2),
    !(Hagree Sw_B3); [reflexivity | | | | | | | |];
    unfold switch_pins; simpl; tauto.
Qed.

(** X3. Two pin states read as the same code exactly when they agree on
    the eight switch pins: the reading is one-to-one on those pins and
    looks at no other pin. *)
Theorem readSwitches_same_code (dr1 dr2 : Z -> bool) :
  readSwitches dr1 = readSwitches dr2
  <-> (forall pin, In pin switch_pins -> dr1 pin = dr2 pin).
Proof.
  split.
  - intros Heq pin Hin. apply In_switch_pins in Hin.
    unfold Sw_A0, Sw_B3 in Hin.
    assert (Hk : 0 <= pin - Sw_A0 <= 7) by (unfold Sw_A0; lia).
    destruct (readSwitches_bits dr1 _ Hk) as [H1 _].
    destruct (readSwitches_bits dr2 _ Hk) as [H2 _].
    replace (Sw_A0 + (pin - Sw_A0)) with pin in H1, H2 by lia.
    rewrite <- H1, <- H2, Heq. reflexivity.
  - apply readSwitches_agree.
Qed.

(** X4. Complementing every switch pin complements the code: the reading
    becomes 255 minus the former one, which is how true-code and
    complementary-code hex switches relate. *)
Theorem readSwitches_complement (digitalRead : Z -> bool) :
  readSwitches (fun pin => negb (digitalRead pin))
  = 255 - readSwitches digitalRead.
Proof.
  rewrite (readSwitches_weights digitalRead).
  rewrite (readSwitches_weights (fun pin => negb (digitalRead pin))).
  destruct (digitalRead Sw_A0), (digitalRead Sw_A1), (digitalRead Sw_A2),
    (digitalRead Sw_A3), (digitalRead Sw_B0), (digitalRead Sw_B1),
    (digitalRead Sw_B2), (digitalRead Sw_B3); reflexivity.
Qed.

(** ** [blinkLamp] on arbitrary arrays *)

(** Whatever holds of the empty trace and is kept by the three calls made
    for a non-zero entry holds of every trace [blinkLamp] returns. *)

Lemma blinkLamp_loop_invariant (pattern : list Z) (pattern_length : Z)
    (P : trace -> Prop) :
  P [] ->
  (forall v level rest,
      In v pattern -> millisecs_of v <> 0 -> P rest ->
      P (DigitalWrite Lamp level :: DigitalWrite LED level
           :: Delay (to_ulong (millisecs_of v)) :: rest)) ->
  forall fuel i lampState tr,
    blinkLamp_loop fuel pattern pattern_length i lampState = Some tr -> P tr.
Proof.
  intros Hnil Hstep.
  induction fuel as [|fuel IH]; intros i st tr Hrun; [discriminate|].
  cbn [blinkLamp_loop] in Hrun.
  destruct (i <? pattern_length); [|now injection Hrun as <-].
  destruct (nth_error pattern (Z.to_nat i)) as [v|] eqn:Hnth; [|discriminate].
  destruct (Z.eqb_spec (millisecs_of v) 0) as [Hz | Hnz].
  - now apply IH in Hrun.
  - destruct (blinkLamp_loop fuel pattern pattern_length (to_byte (i + 1))
                (negb st)) as [rest|] eqn:Hrest; [|discriminate].
    injection Hrun as <-.
    apply Hstep; [now apply (nth_error_In pattern (Z.to_nat i)) | exact Hnz |].
    now apply IH in Hrest.
Qed.

Lemma led_writes_app (a b : trace) :
  led_writes (a ++ b) = led_writes a ++ led_writes b.
Proof. unfold led_writes. apply flat_map_app. Qed.

Lemma written_pins_app (a b : trace) :
  written_pins (a ++ b) = written_pins a ++ written_pins b.
Proof. unfold written_pins. apply flat_map_app. Qed.

(** X5. The on-board LED mirrors the lamp: whatever array and length
    [blinkLamp] is given, the levels it writes to the LED are the levels
    it writes to the lamp, in the same order, and it writes no other
    pin. *)
Theorem blinkLamp_led_mirrors (pattern : list Z) (pattern_length : Z)
    (tr : trace) :
  blinkLamp pattern pattern_length = Some tr ->
  led_writes tr = lamp_writes tr
  /\ Forall (fun pin => pin = Lamp \/ pin = LED) (written_pins tr).
Proof.
  unfold blinkLamp.
  apply (blinkLamp_loop_invariant pattern pattern_length
           (fun tr => led_writes tr = lamp_writes tr
                      /\ Forall (fun pin => pin = Lamp \/ pin = LED)
                           (written_pins tr))).
  - split; [reflexivity | constructor].
  - intros v level rest _ _ [Hm Hp]. split.
    + change (level :: led_writes rest = level :: lamp_writes rest).
      now rewrite Hm.
    + change (Forall (fun pin => pin = Lamp \/ pin = LED)
                (Lamp :: LED :: written_pins rest)).
      repeat constructor; tauto.
Qed.

Lemma blinkLamp_led_mirrors_witness :
  led_writes (play false Code6F) = lamp_writes (play false Code6F)
  /\ Forall (fun pin => pin = Lamp \/ pin = LED)
       (written_pins (play false Code6F)).
Proof.
  apply (blinkLamp_led_mirrors Code6F 10 (play false Code6F)).
  vm_compute. reflexivity.
Defined.

(** X6. [blinkLamp] never suspends for zero time and never for more than
    25.5 s at once: on an array of bytes every suspension it requests is
    a whole number of tenths of a second between 100 ms and 25500 ms. *)
Theorem blinkLamp_delays_bounded (pattern : list Z) (pattern_length : Z)
    (tr : trace) :
  Forall is_byte pattern ->
  blinkLamp pattern pattern_length = Some tr ->
  Forall (fun ms => 100 <= ms <= 25500 /\ ms mod 100 = 0) (delays tr).
Proof.
  intros Hb. unfold blinkLamp.
  apply (blinkLamp_loop_invariant pattern pattern_length
           (fun tr => Forall (fun ms => 100 <= ms <= 25500 /\ ms mod 100 = 0)
                        (delays tr))).
  - constructor.
  - intros v level rest Hin Hnz Hrest.
    rewrite Forall_forall in Hb. specialize (Hb v Hin).
    rewrite (to_ulong_millisecs v Hb).
    rewrite (millisecs_of_byte v Hb) in Hnz.
    change (Forall (fun ms => 100 <= ms <= 25500 /\ ms mod 100 = 0)
              (v * 100 :: delays rest)).
    constructor; [|exact Hrest].
    unfold is_byte in Hb. split; [lia | apply Z.mod_mul; lia].
Qed.

Lemma blinkLamp_delays_bounded_witness :
  Forall (fun ms => 100 <= ms <= 25500 /\ ms mod 100 = 0)
    (delays (play false Code6F)).
Proof.
  apply (blinkLamp_delays_bounded Code6F 10 (play false Code6F)).
  - unfold Code6F, is_byte. repeat constructor; lia.
  - vm_compute. reflexivity.
Defined.

(** X7. [blinkLamp] plays the first [pattern_length] entries of the array
    it is given and looks at nothing beyond them: with a length that is a
    byte and within the array, the pass returns, and it is the pass over
    the array cut at that length. *)
Theorem blinkLamp_ignores_tail (pattern : list Z) (pattern_length : Z) :
  is_byte pattern_length ->
  pattern_length <= sizeof pattern ->
  (exists tr, blinkLamp pattern pattern_length = Some tr)
  /\ blinkLamp pattern pattern_length
     = blinkLamp (firstn (Z.to_nat pattern_length) pattern) pattern_length.
Proof.
  intros Hlen Hsz. unfold is_byte in Hlen.
  rewrite (blinkLamp_prefix pattern pattern_length) by lia.
  split; [eexists; reflexivity|].
  symmetry. apply blinkLamp_exact; [exact Hlen|].
  unfold sizeof in *. rewrite length_firstn. lia.
Qed.

Lemma blinkLamp_ignores_tail_witness :
  (exists tr, blinkLamp CodeFF 4 = Some tr)
  /\ blinkLamp CodeFF 4 = blinkLamp (firstn (Z.to_nat 4) CodeFF) 4.
Proof.
  apply (blinkLamp_ignores_tail CodeFF 4).
  - unfold is_byte. lia.
  - vm_compute. discriminate.
Defined.

Lemma play_app (a b : list Z) :
  forall lampState,
    play lampState (a ++ b)
    = play lampState a ++ play (toggled (length a) lampState) b.
Proof.
  induction a as [|v a IH]; intros st; [reflexivity|].
  cbn [app play length]. rewrite IH.
  replace (toggled (S (length a)) st) with (toggled (length a) (negb st))
    by (unfold toggled; rewrite Nat.even_succ, <- Nat.negb_even;
        destruct (Nat.even (length a)), st; reflexivity).
  now destruct (millisecs_of v =? 0).
Qed.

Lemma delays_entry (b : bool) (ms : Z) :
  delays [DigitalWrite Lamp b; DigitalWrite LED b; Delay ms] = [ms].
Proof. reflexivity. Qed.

Lemma lamp_writes_play_count (pattern : list Z) :
  Forall is_byte pattern ->
  forall lampState,
    length (lamp_writes (play lampState pattern)) = count_nonzero pattern.
Proof.
  induction 1 as [|v rest Hv _ IH]; intros st; [reflexivity|].
  rewrite play_step, lamp_writes_app, length_app, IH by exact Hv.
  unfold count_nonzero. cbn [filter]. now destruct (nonzero v).
Qed.

Lemma delays_play (pattern : list Z) :
  Forall is_byte pattern ->
  forall lampState,
    delays (play lampState pattern)
    = map (fun v => v * 100) (filter nonzero pattern).
Proof.
  induction 1 as [|v rest Hv _ IH]; intros st; [reflexivity|].
  rewrite play_step, delays_app, IH by exact Hv.
  cbn [filter]. now destruct (nonzero v).
Qed.

Lemma sum_filter_nonzero (l : list Z) : sum (filter nonzero l) = sum l.
Proof.
  induction l as [|v l IH]; [reflexivity|].
  cbn [filter]. unfold nonzero at 1.
  destruct (Z.eqb_spec v 0) as [-> | Hne]; cbn [negb];
    unfold sum in *; cbn [fold_right]; rewrite IH; reflexivity.
Qed.

(** X8. Zero entries cost nothing and write nothing: over an array of
    bytes a pass writes the lamp once per non-zero entry, suspends once
    per non-zero entry for that entry's tenths of a second, and the pass
    lasts the sum of all entries times 100 ms, fold markers or not. *)
Theorem blinkLamp_pass_accounting (pattern : list Z) (pattern_length : Z) :
  is_byte pattern_length ->
  sizeof pattern = pattern_length ->
  Forall is_byte pattern ->
  exists tr,
    blinkLamp pattern pattern_length = Some tr
    /\ length (lamp_writes tr) = count_nonzero pattern
    /\ delays tr = map (fun v => v * 100) (filter nonzero pattern)
    /\ total_delay tr = sum pattern * 100.
Proof.
  intros Hlen Hsz Hb. exists (play false pattern).
  split; [now apply blinkLamp_exact|].
  split; [now apply lamp_writes_play_count|].
  unfold total_delay. rewrite (delays_play pattern Hb false).
  split; [reflexivity|].
  now rewrite sum_scaled, sum_filter_nonzero.
Qed.

Lemma blinkLamp_pass_accounting_witness :
  exists tr,
    blinkLamp Code6F 10 = Some tr
    /\ length (lamp_writes tr) = count_nonzero Code6F
    /\ delays tr = map (fun v => v * 100) (filter nonzero Code6F)
    /\ total_delay tr = sum Code6F * 100.
Proof.
  apply (blinkLamp_pass_accounting Code6F 10).
  - unfold is_byte. lia.
  - reflexivity.
  - unfold Code6F, is_byte. repeat constructor; lia.
Defined.

(** X9. A run of k zero entries between two non-zero entries N and M
    leaves M at the level of N exactly when k is odd: one zero, the
    stacking the sketch documents, continues N's level into M, while an
    even number of zeros changes nothing. *)
Theorem zero_run_parity (pre post : list Z) (N M : Z) (k : nat) :
  let pattern := pre ++ [N] ++ repeat 0 k ++ [M] ++ post in
  forall pattern_length : Z,
  is_byte pattern_length ->
  sizeof pattern = pattern_length ->
  Forall is_byte pattern ->
  N <> 0 -> M <> 0 ->
  exists tr level,
    blinkLamp pattern pattern_length = Some tr
    /\ write_for pattern (length pre) tr = Some level
    /\ write_for pattern (length pre + S k) tr
       = Some (if Nat.odd k then level else negb level).
Proof.
  intros pattern len Hlen Hsz Hb HN HM.
  assert (HnN : nth_error pattern (length pre) = Some N).
  { unfold pattern. rewrite nth_error_app2 by lia.
    now rewrite Nat.sub_diag. }
  assert (HnM : nth_error pattern (length pre + S k) = Some M).
  { unfold pattern. rewrite nth_error_app2 by lia.
    replace (length pre + S k - length pre)%nat with (S k) by lia.
    cbn [app nth_error]. rewrite nth_error_app2 by (rewrite repeat_length; lia).
    now rewrite repeat_length, Nat.sub_diag. }
  exists (play false pattern), (Nat.even (length pre)).
  split; [now apply blinkLamp_exact|].
  split; [now apply (write_for_parity pattern _ N)|].
  rewrite (write_for_parity pattern _ M Hb HnM HM).
  rewrite Nat.even_add, Nat.even_succ.
  now destruct (Nat.even (length pre)), (Nat.odd k).
Qed.

Lemma zero_run_parity_witness :
  exists tr level,
    blinkLamp Code6F 10 = Some tr
    /\ write_for Code6F 7 tr = Some level
    /\ write_for Code6F 9 tr = Some level.
Proof.
  apply (zero_run_parity [5; 5; 5; 5; 5; 5; 5] [] 255 10 1 10).
  - unfold is_byte. lia.
  - reflexivity.
  - unfold is_byte. repeat constructor; lia.
  - discriminate.
  - discriminate.
Defined.

(** X10. Stacking two intervals: for non-zero bytes N, M and F the array
    [N; 0; M; F] shows the lamp on for (N + M) * 100 ms without a break
    and then off for F * 100 ms, so one visible interval can last up to
    51 s although no entry exceeds 25.5 s. *)
Theorem stacked_interval (N M F : Z) :
  tick_entry N -> tick_entry M -> tick_entry F ->
  exists tr,
    blinkLamp [N; 0; M; F] 4 = Some tr
    /\ forall before,
         segments before tr = [(true, (N + M) * 100); (false, F * 100)].
Proof.
  intros HN HM HF. exists (play false [N; 0; M; F]).
  split; [apply blinkLamp_exact; [unfold is_byte; lia | reflexivity]|].
  intros before.
  rewrite (play_step false N) by apply HN.
  rewrite (play_step true 0) by (unfold is_byte; lia).
  rewrite (play_step false M) by apply HM.
  rewrite (play_step true F) by apply HF.
  rewrite (tick_entry_nonzero N HN), (tick_entry_nonzero M HM),
    (tick_entry_nonzero F HF).
  cbn. f_equal. f_equal. lia.
Qed.

Lemma stacked_interval_witness :
  exists tr,
    blinkLamp [255; 0; 255; 10] 4 = Some tr
    /\ forall before,
         segments before tr = [(true, (255 + 255) * 100); (false, 10 * 100)].
Proof.
  apply (stacked_interval 255 255 10);
    unfold tick_entry, is_byte; lia.
Defined.

Lemma transitions_alternate_same (n : nat) (b : bool) :
  transitions b (alternate b (S n)) = n.
Proof.
  cbn [alternate transitions]. rewrite eqb_reflx.
  pose proof (transitions_alternate n (negb b)) as Ht.
  rewrite negb_involutive in Ht. now rewrite Ht.
Qed.

(** X11. A pass starts from the same running level it ends an even number
    of entries with, so playing the concatenation of two arrays, the first
    of even length, is playing the first and then the second. *)
Theorem blinkLamp_concat (a b : list Z) :
  is_byte (sizeof (a ++ b)) ->
  Nat.even (length a) = true ->
  exists ta tb,
    blinkLamp a (sizeof a) = Some ta
    /\ blinkLamp b (sizeof b) = Some tb
    /\ blinkLamp (a ++ b) (sizeof (a ++ b)) = Some (ta ++ tb).
Proof.
  intros Hsz Heven.
  assert (Hab : sizeof (a ++ b) = sizeof a + sizeof b)
    by (unfold sizeof; rewrite length_app; lia).
  assert (Ha : is_byte (sizeof a))
    by (unfold is_byte, sizeof in *; rewrite length_app in Hsz; lia).
  assert (Hb : is_byte (sizeof b))
    by (unfold is_byte, sizeof in *; rewrite length_app in Hsz; lia).
  exists (play false a), (play false b).
  rewrite (blinkLamp_exact a (sizeof a) Ha eq_refl).
  rewrite (blinkLamp_exact b (sizeof b) Hb eq_refl).
  rewrite (blinkLamp_exact (a ++ b) (sizeof (a ++ b)) Hsz eq_refl).
  rewrite play_app. unfold toggled. rewrite Heven. repeat split.
Qed.

Lemma blinkLamp_concat_witness :
  exists ta tb,
    blinkLamp Code01 (sizeof Code01) = Some ta
    /\ blinkLamp Code6F (sizeof Code6F) = Some tb
    /\ blinkLamp (Code01 ++ Code6F) (sizeof (Code01 ++ Code6F))
       = Some (ta ++ tb).
Proof.
  apply (blinkLamp_concat Code01 Code6F).
  - vm_compute. split; discriminate.
  - reflexivity.
Defined.

(** X12. An array with an odd number of entries, none zero, leaves the
    lamp on when the pass ends, whatever its level before; and since
    every pass begins by writing the lamp on, a pass that finds the lamp
    already on changes its level one time fewer than it writes it. *)
Theorem odd_length_leaves_lamp_on (pattern : list Z) (pattern_length : Z) :
  is_byte pattern_length ->
  sizeof pattern = pattern_length ->
  Forall tick_entry pattern ->
  Nat.odd (length pattern) = true ->
  exists tr,
    blinkLamp pattern pattern_length = Some tr
    /\ (forall before, lamp_after before tr = true)
    /\ S (transitions true (lamp_writes tr)) = length pattern.
Proof.
  intros Hlen Hsz Hticks Hodd. exists (play false pattern).
  split; [now apply blinkLamp_exact|].
  unfold lamp_after.
  rewrite (lamp_writes_play_ticks pattern Hticks false).
  destruct (length pattern) as [|n]; [discriminate|].
  rewrite Nat.odd_succ in Hodd. split.
  - intros before. rewrite last_alternate, Hodd. reflexivity.
  - f_equal. apply (transitions_alternate_same n true).
Qed.

Lemma odd_length_leaves_lamp_on_witness :
  exists tr,
    blinkLamp Code18 5 = Some tr
    /\ (forall before, lamp_after before tr = true)
    /\ S (transitions true (lamp_writes tr)) = length Code18.
Proof.
  apply (odd_length_leaves_lamp_on Code18 5).
  - unfold is_byte. lia.
  - reflexivity.
  - unfold Code18, tick_entry, is_byte. repeat constructor; lia.
  - reflexivity.
Defined.

(** ** The table as a whole *)




(** X14. Whatever the switches read, the control cycle returns and its
    first write to the lamp turns it on: no setting gives a cycle that
    leaves the lamp untouched or starts dark. *)
Theorem every_cycle_starts_lit (setting : Z) :
  is_byte setting ->
  exists tr rest,
    cycle setting = Some tr /\ lamp_writes tr = HIGH :: rest.
Proof.
  intros Hs.
  pose proof (forall_bytes cycle_starts_lit ltac:(vm_compute; reflexivity)
                setting Hs) as Hlit.
  unfold cycle_starts_lit in Hlit.
  destruct (cycle setting) as [tr|]; [|discriminate].
  destruct (lamp_writes tr) as [|first rest] eqn:Hw; [discriminate|].
  exists tr, rest. split; [reflexivity|].
  apply eqb_prop in Hlit. now rewrite Hw, Hlit.
Qed.

Lemma every_cycle_starts_lit_witness :
  exists tr rest, cycle 255 = Some tr /\ lamp_writes tr = HIGH :: rest.
Proof. apply (every_cycle_starts_lit 255). unfold is_byte. lia. Defined.

(** X15. A flashing cycle lasts between 0.5 s and 30 s: for every setting
    other than 0 the cycle suspends for at least 500 ms and at most
    30000 ms in total, so the outer loop never spins and a change of the
    switches is seen within 30 s. *)
Theorem cycle_duration (setting : Z) :
  is_byte setting ->
  setting <> 0 ->
  exists tr,
    cycle setting = Some tr /\ 500 <= total_delay tr <= 30000.
Proof.
  intros Hs Hne.
  pose proof (forall_bytes cycle_duration_bounded
                ltac:(vm_compute; reflexivity) setting Hs) as Hd.
  unfold cycle_duration_bounded in Hd.
  destruct (cycle setting) as [tr|]; [|discriminate].
  exists tr. split; [reflexivity|].
  apply orb_true_iff in Hd as [Hz | Hd]; [apply Z.eqb_eq in Hz; contradiction|].
  apply andb_true_iff in Hd as [Hlo Hhi]. apply Z.leb_le in Hlo, Hhi. lia.
Qed.

Lemma cycle_duration_witness :
  exists tr, cycle 111 = Some tr /\ 500 <= total_delay tr <= 30000.
Proof.
  apply (cycle_duration 111); [unfold is_byte; lia | discriminate].
Defined.

(** X16. With code 0 and the five arrays of odd length apart, every cycle
    ends with the lamp off: whatever the level before, the lamp is on at
    the end of a cycle exactly for the settings 0, 24, 60, 75, 142 and
    157, whose next pass therefore begins with the lamp already on. *)
Theorem cycle_end_level (setting : Z) (before : bool) :
  is_byte setting ->
  exists tr,
    cycle setting = Some tr
    /\ (lamp_after before tr = true <-> In setting ends_lit).
Proof.
  intros Hs.
  pose proof (forall_bytes cycle_end_check ltac:(vm_compute; reflexivity)
                setting Hs) as Hchk.
  unfold cycle_end_check in Hchk.
  destruct (cycle setting) as [tr|]; [|discriminate].
  exists tr. split; [reflexivity|].
  apply andb_true_iff in Hchk as [Hoff Hon].
  apply eqb_prop in Hoff, Hon.
  assert (Hlevel : lamp_after before tr = existsb (Z.eqb setting) ends_lit)
    by now destruct before.
  rewrite Hlevel, existsb_exists. split.
  - intros (c & Hin & Heq). apply Z.eqb_eq in Heq. now subst c.
  - intros Hin. exists setting. split; [exact Hin | apply Z.eqb_refl].
Qed.

Lemma cycle_end_level_witness :
  exists tr,
    cycle 24 = Some tr /\ (lamp_after false tr = true <-> In 24 ends_lit).
Proof. apply (cycle_end_level 24 false). unfold is_byte. lia. Defined.

(** ** [setup] and the pins the sketch uses *)

(** X17. [setup] prepares exactly the pins [readSwitches] reads: a pin is
    an input whose pull-up was switched on after it became an input
    exactly when it is one of the eight switch pins; the lamp and LED
    pins are left as outputs and are not written by [setup]. *)
Theorem setup_prepares_switch_pins (pin : Z) :
  (In pin switch_pins
   <-> mode_after_setup pin = Some INPUT /\ pulled_up pin = true)
  /\ mode_after_setup Lamp = Some OUTPUT
  /\ mode_after_setup LED = Some OUTPUT
  /\ ~ In (SetupWrite Lamp HIGH) setup
  /\ ~ In (SetupWrite Lamp LOW) setup.
Proof.
  split; [|split; [reflexivity|split; [reflexivity|split]]].
  - split.
    + unfold switch_pins. intros Hin.
      repeat (destruct Hin as [<- | Hin]; [split; reflexivity|]).
      destruct Hin.
    + intros [Hmode _]. apply In_switch_pins.
      revert Hmode. unfold mode_after_setup, setup. cbn [fold_left].
      unfold Sw_A0, Sw_A1, Sw_A2, Sw_A3, Sw_B0, Sw_B1, Sw_B2, Sw_B3, Lamp, LED.
      repeat match goal with
             | |- context [?a =? pin] => destruct (Z.eqb_spec a pin)
             end; intros Hmode; try discriminate; lia.
  - unfold setup. cbn [In]. intros H.
    repeat (destruct H as [H | H]; [discriminate|]). destruct H.
  - unfold setup. cbn [In]. intros H.
    repeat (destruct H as [H | H]; [discriminate|]). destruct H.
Qed.

(** X18. [readSwitches] looks only at pins [setup] has prepared: two pin
    states that agree on every pulled-up input read as the same code, so
    the lamp and LED outputs never feed back into the selection. *)
Theorem readSwitches_reads_prepared_inputs (dr1 dr2 : Z -> bool) :
  (forall pin,
      mode_after_setup pin = Some INPUT -> pulled_up pin = true ->
      dr1 pin = dr2 pin) ->
  readSwitches dr1 = readSwitches dr2.
Proof.
  intros Hagree. apply readSwitches_agree.
  intros pin Hin. unfold switch_pins in Hin.
  repeat (destruct Hin as [<- | Hin]; [apply Hagree; reflexivity|]).
  destruct Hin.
Qed.

Lemma readSwitches_reads_prepared_inputs_witness :
  readSwitches (fun pin => pin =? Sw_A1)
  = readSwitches (fun pin => (pin =? Sw_A1) || (pin =? Lamp)).
Proof.
  apply (readSwitches_reads_prepared_inputs
           (fun pin => pin =? Sw_A1)
           (fun pin => (pin =? Sw_A1) || (pin =? Lamp))).
  intros pin Hmode _.
  destruct (Z.eqb_spec pin Lamp) as [-> | Hne];
    [vm_compute in Hmode; discriminate | now rewrite orb_false_r].
Defined.

(** X19. Over any number of control cycles, whatever the switches read
    each time, the run returns, the LED has been written exactly the
    levels of the lamp, and every pin written is one [setup] made an
    output. *)
Theorem run_cycles_drive_outputs (settings : list Z) :
  Forall is_byte settings ->
  exists tr,
    run_cycles settings = Some tr
    /\ led_writes tr = lamp_writes tr
    /\ Forall (fun pin => mode_after_setup pin = Some OUTPUT)
         (written_pins tr).
Proof.
  induction 1 as [|setting later Hs _ (rest & Hrun & Hm & Hp)].
  - exists []. repeat split. constructor.
  - pose proof (forall_bytes cycle_mirrors ltac:(vm_compute; reflexivity)
                  setting Hs) as Hmir.
    pose proof (forall_bytes cycle_writes_outputs
                  ltac:(vm_compute; reflexivity) setting Hs) as Hout.
    unfold cycle_mirrors, cycle_writes_outputs, cycle in Hmir, Hout.
    cbn [run_cycles].
    destruct (perform (select setting)) as [tr|]; [|discriminate].
    exists (tr ++ rest). rewrite Hrun. split; [reflexivity|].
    rewrite led_writes_app, lamp_writes_app, written_pins_app, Hm.
    destruct (list_eq_dec bool_dec (led_writes tr) (lamp_writes tr))
      as [-> |]; [|discriminate].
    split; [reflexivity|].
    apply Forall_app. split; [|exact Hp].
    rewrite forallb_forall in Hout. apply Forall_forall. intros pin Hin.
    specialize (Hout pin Hin).
    destruct (mode_after_setup pin) as [[|]|]; try discriminate. reflexivity.
Qed.

Lemma run_cycles_drive_outputs_witness :
  exists tr,
    run_cycles [0; 111; 255] = Some tr
    /\ led_writes tr = lamp_writes tr
    /\ Forall (fun pin => mode_after_setup pin = Some OUTPUT)
         (written_pins tr).
Proof.
  apply (run_cycles_drive_outputs [0; 111; 255]).
  unfold is_byte. repeat constructor; lia.
Defined.
